(** * RAGMeUp rerankers: feedback aggregation and score fusion

    A shallow embedding of the two reranking paths of the repository:

    - the lexical path, [server/Reranker_Lis.py] (and its near-duplicate
      [server/Reranker.py], whose functions differ by their [print] calls
      only): [combiner], [retrieve_with_bm25], [compute_relevance_score],
      [rerank_documents_with_feedback], [main_reranker];
    - the semantic path, [server/scored_cross_encoder_reranker.py]:
      [_get_document_feedback_score] and [compress_documents] of
      [FeedbackAwareCrossEncoderReranker].

    Conventions of the embedding.

    - Python [str] is [string]; the text is taken to be ASCII.
    - Ratings are [Z]: the [int64] column of pandas is taken without its
      wrap-around, and without the rounding of the [float64] column through
      which a left merge with a missing row passes it; both are exact while
      the sums stay below [2^53] in magnitude, the bound that the statements
      on sums of ratings carry.  Python [float] scores are idealised as
      exact rationals [Q]: [0.7] is [7#10], [0.3] is [3#10], [0.5] is [1#2].
      A pandas [NaN] is [None] in an [option].
    - A pandas DataFrame is the list of its rows, in index order; pandas
      behaves as its versions 1 and 2 do (the in-place [fillna] of line 86
      takes effect).  Exceptions are values of [exn], carried by [pyresult].
    - The external collaborators are parameters: the BM25 scorer of
      [rank_bm25], which may raise; the [sort_values] of pandas with its
      default sorting algorithm; and the cross-encoder model held by the
      semantic reranker, a total function from a list of pairs to a list of
      scores.
    - Line numbers are those of [server/Reranker_Lis.py] and
      [server/scored_cross_encoder_reranker.py]. *)

From Stdlib Require Import ZArith QArith Lqa List String Ascii Permutation Sorted Lia.
From stdpp Require Import base option list sorting gmap strings fin_maps.
Import ListNotations.

Local Open Scope Z_scope.
Local Open Scope string_scope.
Local Open Scope list_scope.

(** ** Part I: the model *)

(** *** Exceptions *)

(** The exceptions that the modelled code raises itself, and the one that
    [BM25Okapi] raises on an empty corpus. *)
Inductive exn : Type :=
| UnboundLocalError (name : string)
| KeyError (key : string)
| ZeroDivisionError.

Inductive pyresult (A : Type) : Type :=
| Ok (a : A)
| Raise (e : exn).

Arguments Ok {A} a.
Arguments Raise {A} e.

Definition pybind {A B : Type} (r : pyresult A) (k : A -> pyresult B) : pyresult B :=
  match r with
  | Ok a => k a
  | Raise e => Raise e
  end.

#[global] Instance pyresult_bind : MBind pyresult := fun A B k r => pybind r k.
#[global] Instance pyresult_ret : MRet pyresult := fun A a => Ok a.

(** *** Python string methods used by the source *)

Module PyStr.

(** The double-quote character, code 34. *)
Definition dquote : ascii := "034"%char.

(** The three-character string: space, double quote, space. *)
Definition sp_dquote_sp : string :=
  String " "%char (String dquote (String " "%char EmptyString)).

(** [s.replace(old, new)] for a non-empty [old]: occurrences are found from
    the left and do not overlap.  [skip] counts the characters of an
    occurrence still to be passed over. *)
Fixpoint replace_go (old new : string) (skip : nat) (s : string) : string :=
  match s with
  | EmptyString => EmptyString
  | String c s' =>
      match skip with
      | S k => replace_go old new k s'
      | O =>
          if String.prefix old s
          then new ++ replace_go old new (String.length old - 1) s'
          else String c (replace_go old new 0 s')
      end
  end.

Definition replace (old new s : string) : string := replace_go old new 0 s.

(** [s.split(sep)] for a one-character separator: never the empty list. *)
Fixpoint split (sep : ascii) (s : string) : list string :=
  match s with
  | EmptyString => [EmptyString]
  | String c s' =>
      if Ascii.eqb c sep then EmptyString :: split sep s'
      else match split sep s' with
           | [] => [String c EmptyString]
           | w :: ws => String c w :: ws
           end
  end.

Fixpoint mem_char (c : ascii) (chars : string) : bool :=
  match chars with
  | EmptyString => false
  | String d chars' => Ascii.eqb c d || mem_char c chars'
  end.

Fixpoint lstrip (chars s : string) : string :=
  match s with
  | EmptyString => EmptyString
  | String c s' => if mem_char c chars then lstrip chars s' else s
  end.

Fixpoint rstrip (chars s : string) : string :=
  match s with
  | EmptyString => EmptyString
  | String c s' =>
      match rstrip chars s' with
      | EmptyString => if mem_char c chars then EmptyString else String c EmptyString
      | r => String c r
      end
  end.

(** [s.strip(chars)] *)
Definition strip (chars s : string) : string := rstrip chars (lstrip chars s).

(** Whitespace as [str.split()] sees it, within ASCII: codes 9 to 13 and
    28 to 32. *)
Definition isspace (c : ascii) : bool :=
  let n := nat_of_ascii c in
  ((9 <=? n)%nat && (n <=? 13)%nat) || ((28 <=? n)%nat && (n <=? 32)%nat).

(** [s.split()]: the maximal runs of non-whitespace characters. *)
Fixpoint split_ws (s : string) : list string :=
  match s with
  | EmptyString => []
  | String c s' =>
      if isspace c then split_ws s'
      else match s' with
           | EmptyString => [String c EmptyString]
           | String c' _ =>
               if isspace c' then String c EmptyString :: split_ws s'
               else match split_ws s' with
                    | [] => [String c EmptyString]
                    | w :: ws => String c w :: ws
                    end
           end
  end.

End PyStr.

(** *** The lexical path: class [Reranker] *)

(** A row of the [Feedback] table as [get_feedback_reranker] selects it. *)
Record FeedbackRow : Type := mkFeedbackRow {
  fb_query : string;
  fb_answer : string;
  fb_document_id : string;   (* the serialized list of document ids *)
  fb_rating : Z
}.

(** [feedback_rating_df]: columns [document_id] and [rating]. *)
Abbreviation RatingRow := (string * Z)%type.

(** Line 58: the cells of the serialized list, before [strip]. *)
Definition split_document_ids (field : string) : list string :=
  PyStr.split ","%char
    (PyStr.replace PyStr.sp_dquote_sp EmptyString
       (PyStr.replace "]" EmptyString
          (PyStr.replace "[" EmptyString field))).

(** Line 64. *)
Definition strip_quotes (cell : string) : string :=
  PyStr.strip (String PyStr.dquote EmptyString) cell.

(** Line 74: [document_id in feedback_rating_df['document_id'].values]. *)
Definition id_in_values (document_id : string) (df : list RatingRow) : bool :=
  existsb (String.eqb document_id) (map fst df).

(** Line 75: [df.loc[df['document_id'] == document_id, 'rating'] += rating];
    the sum is that of [Z], which is that of the [int64] column as long as
    it stays in its range. *)
Definition loc_add_rating (df : list RatingRow) (document_id : string) (rating : Z)
  : list RatingRow :=
  map (fun row => if String.eqb (fst row) document_id
                  then (fst row, snd row + rating) else row) df.

(** Lines 66-77: the row of [document_id] is created or updated.  The local
    variable [feedback_rating_df] is [None] while it is unbound. *)
Definition accumulate (st : option (list RatingRow)) (document_id : string) (rating : Z)
  : option (list RatingRow) :=
  let new_row := (document_id, rating) in
  let feedback_rating_df :=
    match st with
    | None => [new_row]
    | Some df => df
    end in
  if id_in_values document_id feedback_rating_df
  then Some (loc_add_rating feedback_rating_df document_id rating)
  else Some (feedback_rating_df ++ [new_row]).

(** Lines 63-77, one turn of the inner loop. *)
Definition combiner_cell (rating : Z) (st : option (list RatingRow)) (cell : string)
  : option (list RatingRow) :=
  accumulate st (strip_quotes cell) rating.

(** Lines 57-77, one turn of the outer loop. *)
Definition combiner_record (st : option (list RatingRow)) (r : FeedbackRow)
  : option (list RatingRow) :=
  fold_left (combiner_cell (fb_rating r)) (split_document_ids (fb_document_id r)) st.

(** The loops of lines 57-77 over the whole feedback frame. *)
Definition feedback_rating_df (feedback : list FeedbackRow) : option (list RatingRow) :=
  fold_left combiner_record feedback None.

(** The rows that a left merge gives for the left key [d]: one per matching
    row of the right frame, in its order, or one row with [NaN]. *)
Definition left_rows_ratings (right : list RatingRow) (d : string)
  : list (string * option Z) :=
  match filter (fun row => String.eqb (fst row) d) right with
  | [] => [(d, None)]
  | ms => map (fun row => (d, Some (snd row))) ms
  end.

(** [pd.merge(left, right, on='document_id', how='left')] for a one-column
    left frame; the order of the left frame is kept. *)
Definition merge_left_ratings (documents_lst : list string) (right : list RatingRow)
  : list (string * option Z) :=
  flat_map (left_rows_ratings right) documents_lst.

(** Lines 86-88: [fillna(0)] then [astype(int)]. *)
Definition fillna0 (r : option Z) : Z :=
  match r with
  | Some z => z
  | None => 0
  end.

(** [Reranker.combiner] *)
Definition combiner (feedback : list FeedbackRow) (documents_lst : list string)
  : pyresult (list RatingRow) :=
  match feedback_rating_df feedback with
  | None => Raise (UnboundLocalError "feedback_rating_df")
  | Some df =>
      Ok (map (fun row => (fst row, fillna0 (snd row))) (merge_left_ratings documents_lst df))
  end.


Section Lexical.

(** [BM25Okapi(tokenized_docs).get_scores(tokenized_query)] of the library
    [rank_bm25]: one call that may raise, or gives an array of scores. *)
Variable BM25Okapi_get_scores : list (list string) -> list string -> pyresult (list Q).

(** A row of [retrieved_docs_df]. *)
Record Bm25Row : Type := mkBm25Row {
  document : string;
  bm25_score : Q
}.

(** [pd.DataFrame(records)] for a list of dicts: the columns are the keys
    of the dicts, so the frame of no dict has no column at all. *)
Inductive Bm25Frame : Type :=
| NoColumns
| Frame (rows : list Bm25Row).

Definition DataFrame_of_records (records : list Bm25Row) : Bm25Frame :=
  match records with
  | [] => NoColumns
  | _ :: _ => Frame records
  end.

(** [Reranker.retrieve_with_bm25] *)
Definition retrieve_with_bm25 (query : string) (documents : list string)
  : pyresult Bm25Frame :=
  let tokenized_docs := map PyStr.split_ws documents in
  let tokenized_query := PyStr.split_ws query in
  scores ← BM25Okapi_get_scores tokenized_docs tokenized_query;
  let retrieved_docs :=
    map (fun ds => mkBm25Row (fst ds) (snd ds)) (combine documents scores) in
  Ok (DataFrame_of_records retrieved_docs).

Definition default_alpha : Q := 7 # 10.
Definition default_beta : Q := 3 # 10.

(** [Reranker.compute_relevance_score] *)
Definition compute_relevance_score (bm25_score_weight feedback_weight alpha beta : Q) : Q :=
  (alpha * bm25_score_weight + beta * feedback_weight)%Q.

(** A row of the frame merged at line 150: the columns of both frames; the
    right columns are [NaN] where no row of [combined_df] matches. *)
Record MergedRow : Type := mkMergedRow {
  m_document : string;
  m_bm25_score : Q;
  m_document_id : option string;
  m_rating : option Z
}.

(** The merged frame with its added column [relevance_score]. *)
Record RankedRow : Type := mkRankedRow {
  merged : MergedRow;
  relevance_score : option Q
}.

(** [combined_df.sort_values(by='relevance_score', ascending=False)]: pandas,
    with its default algorithm ([kind='quicksort']). *)
Variable sort_values_desc : list RankedRow -> list RankedRow.

(** The rows that the left merge of line 150 gives for the left row [l]. *)
Definition left_rows_on_document (right : list RatingRow) (l : Bm25Row)
  : list MergedRow :=
  match filter (fun r => String.eqb (document l) (fst r)) right with
  | [] => [mkMergedRow (document l) (bm25_score l) None None]
  | ms => map (fun r => mkMergedRow (document l) (bm25_score l)
                          (Some (fst r)) (Some (snd r))) ms
  end.

(** Line 150: [pd.merge(bm25_df, combined_df, left_on='document',
    right_on='document_id', how='left')]. *)
Definition merge_left_on_document (left : list Bm25Row) (right : list RatingRow)
  : list MergedRow :=
  flat_map (left_rows_on_document right) left.

(** Lines 154-158, the call with the default weights; a [NaN] rating gives a
    [NaN] score. *)
Definition relevance_of_row (m : MergedRow) : option Q :=
  match m_rating m with
  | Some feedback_score =>
      Some (compute_relevance_score (m_bm25_score m) (inject_Z feedback_score)
              default_alpha default_beta)
  | None => None
  end.

(** Lines 150-159: the merged frame with its column [relevance_score],
    before it is sorted. *)
Definition scored_frame (rows : list Bm25Row) (combined_df : list RatingRow)
  : list RankedRow :=
  map (fun m => mkRankedRow m (relevance_of_row m)) (merge_left_on_document rows combined_df).

(** [Reranker.rerank_documents_with_feedback]; [feedback] is not used, as in
    the source. *)
Definition rerank_documents_with_feedback (query : string) (documents : list string)
    (feedback : list FeedbackRow) (combined_df : list RatingRow)
  : pyresult (list RankedRow) :=
  bm25_df ← retrieve_with_bm25 query documents;
  match bm25_df with
  | NoColumns => Raise (KeyError "document")
  | Frame rows =>
      Ok (sort_values_desc (scored_frame rows combined_df))
  end.

(** [Reranker.main_reranker], from the two frames that
    [get_feedback_reranker] and [get_documents_reranker] read.  The method
    has no [return]: it prints the three frames and gives [None], here
    [tt]; an exception of either call passes through. *)
Definition main_reranker (feedback_df : list FeedbackRow) (documents_lst : list string)
    (query : string) : pyresult unit :=
  combined_df ← combiner feedback_df documents_lst;
  rerank_df ← rerank_documents_with_feedback query documents_lst feedback_df combined_df;
  Ok tt.

End Lexical.

(** *** Python's [sorted] and slicing *)

#[global] Instance Qeq_decision (x y : Q) : Decision (x == y)%Q := Qeq_dec x y.

Definition Qltb (x y : Q) : bool :=
  match (x ?= y)%Q with
  | Lt => true
  | _ => false
  end.

Section Sorted.
Context {A : Type} (key : A -> Q).

(** [x] stood before every element of the sorted [l]: it passes only the
    elements whose key is strictly below its own. *)
Fixpoint insert_stable (x : A) (l : list A) : list A :=
  match l with
  | [] => [x]
  | y :: l' => if Qltb (key y) (key x) then y :: insert_stable x l' else x :: l
  end.

(** A stable ascending sort that compares keys with [<] only, as
    [list.sort] does. *)
Definition sort_stable (l : list A) : list A := fold_right insert_stable [] l.

(** [sorted(l, key=key, reverse=reverse)]: for [reverse=True] CPython
    reverses the list, sorts it and reverses it again, which keeps equal
    keys in their first order. *)
Definition py_sorted (reverse : bool) (l : list A) : list A :=
  if reverse then List.rev (sort_stable (List.rev l)) else sort_stable l.

(** Ascending and descending order of the keys. *)
Definition key_le (a b : A) : Prop := (key a <= key b)%Q.
Definition key_ge (a b : A) : Prop := (key b <= key a)%Q.

End Sorted.

(** [l[:stop]] *)
Definition slice_to {A : Type} (stop : Z) (l : list A) : list A :=
  if (0 <=? stop)%Z then firstn (Z.to_nat stop) l
  else firstn (length l - Z.to_nat (- stop)) l.

(** *** The semantic path: class [FeedbackAwareCrossEncoderReranker] *)

(** The values a metadata dict holds. *)
Inductive mval : Type :=
| MStr (s : string)
| MNum (x : Q).

(** [langchain_core.documents.Document] *)
Record Document : Type := mkDocument {
  page_content : string;
  metadata : gmap string mval
}.

(** A row of the feedback table of the semantic path. *)
Record NameRatingRow : Type := mkNameRatingRow {
  document_name : string;
  total_rating : Q
}.

(** The attributes that [__init__] sets.  [model] stands for
    [self.model.score], from a list of (query, content) pairs to a list of
    scores. *)
Record FeedbackAwareCrossEncoderReranker : Type := mkReranker {
  model : list (string * string) -> list Q;
  top_n : Z;
  feedback_df : option (list NameRatingRow);
  feedback_weight : Q
}.

(** [feedback_df['document_name'] == source], at one row. *)
Definition name_eq_source (source : mval) (r : NameRatingRow) : bool :=
  match source with
  | MStr s => String.eqb (document_name r) s
  | MNum _ => false
  end.

(** [Series.mean()] of a non-empty column. *)
Definition series_mean (xs : list Q) : Q :=
  (fold_left Qplus xs 0 / inject_Z (Z.of_nat (length xs)))%Q.

(** [FeedbackAwareCrossEncoderReranker._get_document_feedback_score] *)
Definition _get_document_feedback_score (self : FeedbackAwareCrossEncoderReranker)
    (document : Document) : Q :=
  match feedback_df self with
  | None => 1 # 2
  | Some df =>
      let source := default (MStr EmptyString) (metadata document !! "source") in
      let matching_rows := filter (name_eq_source source) df in
      match matching_rows with
      | [] => 1 # 2
      | _ :: _ => series_mean (map total_rating matching_rows)
      end
  end.

(** Lines 81-84. *)
Definition combined_score_of (self : FeedbackAwareCrossEncoderReranker)
    (cross_encoder_score feedback_score : Q) : Q :=
  ((1 - feedback_weight self) * cross_encoder_score
   + feedback_weight self * feedback_score)%Q.

(** Line 72. *)
Definition cross_encoder_scores (self : FeedbackAwareCrossEncoderReranker)
    (documents : list Document) (query : string) : list Q :=
  model self (map (fun doc => (query, page_content doc)) documents).

(** Lines 75-86: the list [docs_with_scores] when the loop ends. *)
Definition docs_with_scores (self : FeedbackAwareCrossEncoderReranker)
    (documents : list Document) (query : string) : list (Document * Q) :=
  map (fun dc =>
         let doc := fst dc in
         let cross_encoder_score := snd dc in
         let feedback_score := _get_document_feedback_score self doc in
         (doc, combined_score_of self cross_encoder_score feedback_score))
      (combine documents (cross_encoder_scores self documents query)).

(** Line 89: [result]. *)
Definition sorted_result (self : FeedbackAwareCrossEncoderReranker)
    (documents : list Document) (query : string) : list (Document * Q) :=
  py_sorted snd true (docs_with_scores self documents query).

(** Lines 93-100: [doc.copy(update={"metadata": {**doc.metadata, ...}})]. *)
Definition annotate (self : FeedbackAwareCrossEncoderReranker)
    (doc : Document) (score cross_encoder_score : Q) : Document :=
  mkDocument (page_content doc)
    (<["feedback_score" := MNum (_get_document_feedback_score self doc)]>
       (<["cross_encoder_score" := MNum cross_encoder_score]>
          (<["relevance_score" := MNum score]> (metadata doc)))).

(** [FeedbackAwareCrossEncoderReranker.compress_documents].  Line 101 zips
    [result[:top_n]] with itself, so that [cross_encoder_score] is bound to
    the second component of the same pair as [score]. *)
Definition compress_documents (self : FeedbackAwareCrossEncoderReranker)
    (documents : list Document) (query : string) : list Document :=
  let result := sorted_result self documents query in
  map (fun pp =>
         let doc := fst (fst pp) in
         let score := snd (fst pp) in
         let cross_encoder_score := snd (snd pp) in
         annotate self doc score cross_encoder_score)
      (combine (slice_to (top_n self) result) (slice_to (top_n self) result)).


(** *** Documents as objects

    [compress_documents] receives references to [Document] objects, each
    holding a reference to its metadata dict.  The heap maps addresses to
    objects; a copy is a new object at a fresh address. *)

Inductive pyobj : Type :=
| ODict (entries : gmap string mval)
| ODocument (content : string) (metadata_ref : positive).

(** [doc.page_content] and the entries of [doc.metadata], read through the
    heap. *)
Definition read_document (h : gmap positive pyobj) (l : positive) : option Document :=
  match h !! l with
  | Some (ODocument content m) =>
      match h !! m with
      | Some (ODict entries) => Some (mkDocument content entries)
      | _ => None
      end
  | _ => None
  end.

Definition alloc (h : gmap positive pyobj) (o : pyobj) : gmap positive pyobj * positive :=
  let l := fresh (dom h) in (<[l := o]> h, l).

(** The dict literal of lines 94-99 is a new dict, and [doc.copy(update=...)]
    a new [Document] that refers to it. *)
Definition new_document (h : gmap positive pyobj) (d : Document)
  : gmap positive pyobj * positive :=
  let hm := alloc h (ODict (metadata d)) in
  alloc (fst hm) (ODocument (page_content d) (snd hm)).

Fixpoint new_documents (h : gmap positive pyobj) (ds : list Document)
  : gmap positive pyobj * list positive :=
  match ds with
  | [] => (h, [])
  | d :: ds' =>
      let hl := new_document h d in
      let hls := new_documents (fst hl) ds' in
      (fst hls, snd hl :: snd hls)
  end.

(** [compress_documents] on references: it reads its inputs, and every
    document it returns is newly allocated. *)
Definition compress_documents_ref (self : FeedbackAwareCrossEncoderReranker)
    (h : gmap positive pyobj) (documents : list positive) (query : string)
  : option (gmap positive pyobj * list positive) :=
  docs ← mapM (read_document h) documents;
  Some (new_documents h (compress_documents self docs query)).

(** The keys that line 96-98 set. *)
Definition score_keys : list string :=
  ["relevance_score"; "cross_encoder_score"; "feedback_score"].

(** *** [os.path] and [Reranker.get_documents_reranker] *)

Module OsPath.

(** [s.rfind(c)] for a character: the last index of [c], if any. *)
Fixpoint rfind (c : ascii) (s : string) : option nat :=
  match s with
  | EmptyString => None
  | String d s' =>
      match rfind c s' with
      | Some i => Some (S i)
      | None => if Ascii.eqb d c then Some O else None
      end
  end.

Fixpoint all_dots (s : string) : bool :=
  match s with
  | EmptyString => true
  | String c s' => Ascii.eqb c "."%char && all_dots s'
  end.

(** [posixpath.splitext(p)]: the extension starts at the last dot, when
    that dot comes after the last slash and a character other than a dot
    stands between them. *)
Definition splitext (p : string) : string * string :=
  match rfind "."%char p with
  | None => (p, EmptyString)
  | Some dotIndex =>
      let filenameIndex :=
        match rfind "/"%char p with
        | Some sepIndex => S sepIndex
        | None => O
        end in
      if (filenameIndex <=? dotIndex)%nat
      then
        if all_dots (substring filenameIndex (dotIndex - filenameIndex) p)
        then (p, EmptyString)
        else (substring 0 dotIndex p,
              substring dotIndex (String.length p - dotIndex) p)
      else (p, EmptyString)
  end.

(** [posixpath.join(a, b)] *)
Definition join (a b : string) : string :=
  if String.prefix "/" b then b
  else
    match rfind "/"%char a with
    | Some i => if (S i =? String.length a)%nat then a ++ b else a ++ "/" ++ b
    | None =>
        match a with
        | EmptyString => b
        | _ => a ++ "/" ++ b
        end
    end.

End OsPath.

(** [s[1:]] *)
Definition str_tail (s : string) : string :=
  match s with
  | EmptyString => EmptyString
  | String _ s' => s'
  end.

(** The test of line 46 on the name [f]. *)
Definition listed_file (isfile : string -> bool) (data_directory : string)
    (file_types : list string) (f : string) : bool :=
  isfile (OsPath.join data_directory f)
  && existsb (String.eqb (str_tail (snd (OsPath.splitext f)))) file_types.

(** [Reranker.get_documents_reranker].  [environ] is [os.environ]; the file
    system is read through [listdir] ([None] when [os.listdir] raises) and
    [isfile].  The result is the environment that the call leaves and the
    list it returns ([None] when it raises). *)
Definition get_documents_reranker (environ : gmap string string)
    (listdir : string -> option (list string)) (isfile : string -> bool)
  : gmap string string * option (list string) :=
  let environ := <["data_directory" := "data"]> environ in
  let environ := <["file_types" := "txt,csv,pdf,json"]> environ in
  let file_types := PyStr.split ","%char (default EmptyString (environ !! "file_types")) in
  (environ,
   match environ !! "data_directory" with
   | None => None   (* not reached: line 38 sets the variable *)
   | Some data_directory =>
       match listdir data_directory with
       | None => None
       | Some names =>
           Some (List.filter (listed_file isfile data_directory file_types) names)
       end
   end).

(** *** Vocabulary of the statements *)

(** The (document id, rating) pairs that the two loops of [combiner] pass
    to lines 66-77, in order. *)
Definition visits (feedback : list FeedbackRow) : list (string * Z) :=
  flat_map (fun r => map (fun cell => (strip_quotes cell, fb_rating r))
                       (split_document_ids (fb_document_id r))) feedback.

(** Lines 66-77 at one visit. *)
Definition accumulate_visit (st : option (list RatingRow)) (v : string * Z)
  : option (list RatingRow) :=
  accumulate st (fst v) (snd v).

(** The sum of the ratings visited for [d]. *)
Fixpoint visit_sum (vs : list (string * Z)) (d : string) : Z :=
  match vs with
  | [] => 0
  | v :: vs' => (if String.eqb (fst v) d then snd v else 0) + visit_sum vs' d
  end.

(** What [combiner] accumulates for [d]: every visit of [d], and the very
    first visit of the run once more when it is a visit of [d]. *)
Definition accumulated_rating (vs : list (string * Z)) (d : string) : Z :=
  match vs with
  | [] => 0
  | v :: _ => (if String.eqb (fst v) d then snd v else 0) + visit_sum vs d
  end.

(** The sum of the magnitudes of the ratings visited. *)
Fixpoint visit_abs_sum (vs : list (string * Z)) : Z :=
  match vs with
  | [] => 0
  | v :: vs' => Z.abs (snd v) + visit_abs_sum vs'
  end.

(** The rating that the first row of [df] with key [d] holds, 0 if none. *)
Fixpoint rating_at (df : list RatingRow) (d : string) : Z :=
  match df with
  | [] => 0
  | row :: df' => if String.eqb (fst row) d then snd row else rating_at df' d
  end.

(** The document ids of a feedback record, after trimming. *)
Definition record_ids (r : FeedbackRow) : list string :=
  map strip_quotes (split_document_ids (fb_document_id r)).

(** Following the spec's words: the cumulative rating of [d] is the sum of
    the ratings of every feedback record whose document ids contain [d]. *)
Definition cumulative_rating_spec (feedback : list FeedbackRow) (d : string) : Z :=
  fold_right Z.add 0
    (map fb_rating (filter (fun r => existsb (String.eqb d) (record_ids r)) feedback)).

(** The number that a metadata dict holds under [k], if it holds one. *)
Definition metadata_num (d : Document) (k : string) : option Q :=
  match metadata d !! k with
  | Some (MNum x) => Some x
  | _ => None
  end.

(** The documents that [compress_documents] annotates, with their combined
    scores: [result[:top_n]]. *)
Definition ranked (self : FeedbackAwareCrossEncoderReranker)
    (documents : list Document) (query : string) : list (Document * Q) :=
  slice_to (top_n self) (sorted_result self documents query).

(** Descending order of the column [relevance_score], [NaN] last. *)
Definition score_ge (a b : option Q) : Prop :=
  match a, b with
  | Some x, Some y => (y <= x)%Q
  | _, None => True
  | None, Some _ => False
  end.

Definition rank_ge (a b : RankedRow) : Prop :=
  score_ge (relevance_score a) (relevance_score b).

(** What pandas promises of [sort_values(ascending=False)] whatever the
    algorithm: the same rows, in descending order.  The default algorithm,
    quicksort, promises nothing on the order of equal keys. *)
Definition sort_values_contract (sort : list RankedRow -> list RankedRow) : Prop :=
  forall l, sort l ≡ₚ l /\ StronglySorted rank_ge (sort l).

(** The characters that lines 58 and 64 treat: brackets, comma, blank and
    double quote. *)
Definition special_chars : string :=
  "[], " ++ String PyStr.dquote EmptyString.

(** An id that holds none of them. *)
Fixpoint plain_id (s : string) : bool :=
  match s with
  | EmptyString => true
  | String c s' => negb (PyStr.mem_char c special_chars) && plain_id s'
  end.

(** *** Sample inputs *)

Module Samples.

(** The serialized list of ids, as JSON text: the quoted ids, joined by
    [sep], in brackets. *)
Definition quoted (s : string) : string :=
  String PyStr.dquote (s ++ String PyStr.dquote EmptyString).

Fixpoint join (sep : string) (cells : list string) : string :=
  match cells with
  | [] => EmptyString
  | [c] => c
  | c :: cells' => c ++ sep ++ join sep cells'
  end.

Definition ids_field (sep : string) (ids : list string) : string :=
  "[" ++ join sep (map quoted ids) ++ "]".

Definition record (ids : list string) (rating : Z) : FeedbackRow :=
  mkFeedbackRow "what is word2vec" "an embedding" (ids_field "," ids) rating.

(** The same record with a blank after each comma, as [json.dumps] writes a
    list. *)
Definition record_blank (ids : list string) (rating : Z) : FeedbackRow :=
  mkFeedbackRow "what is word2vec" "an embedding" (ids_field ", " ids) rating.

(** The scenario of the spec. *)
Definition rec_ab : FeedbackRow := record ["a"; "b"] 2.
Definition rec_b : FeedbackRow := record ["b"] 1.
Definition rec_ab_blank : FeedbackRow := record_blank ["a"; "b"] 2.

Definition rec_a1 : FeedbackRow := record ["a"] 1.
Definition rec_b1 : FeedbackRow := record ["b"] 1.

(** A record whose list of ids is empty: its only cell trims to the empty
    string. *)
Definition rec_none : FeedbackRow := record [] 5.

(** A cross-encoder that scores every pair 1. *)
Definition model_one (pairs : list (string * string)) : list Q :=
  map (fun _ => 1%Q) pairs.

(** A reranker with the default [top_n], no feedback table, and the default
    [feedback_weight]. *)
Definition plain_reranker : FeedbackAwareCrossEncoderReranker :=
  mkReranker model_one 3 None (1 # 2).


Definition doc_x : Document := mkDocument "x" ∅.
Definition doc_y : Document := mkDocument "y" {[ "source" := MStr "y.txt" ]}.

(** A BM25 scorer that finds no query term in any document: one zero per
    document. *)
Definition bm25_zero (tokenized_docs : list (list string)) (tokenized_query : list string)
  : pyresult (list Q) :=
  Ok (map (fun _ => 0%Q) tokenized_docs).

(** A sort that meets [sort_values_contract]: an insertion sort, in which
    rows of equal score keep their order. *)
Definition score_geb (a b : option Q) : bool :=
  match a, b with
  | Some x, Some y => Qle_bool y x
  | _, None => true
  | None, Some _ => false
  end.

Fixpoint insert_desc (x : RankedRow) (l : list RankedRow) : list RankedRow :=
  match l with
  | [] => [x]
  | y :: l' =>
      if score_geb (relevance_score x) (relevance_score y)
      then x :: l else y :: insert_desc x l'
  end.

Definition sort_desc (l : list RankedRow) : list RankedRow :=
  fold_right insert_desc [] l.

(** A heap with the two sample documents, each with its metadata dict. *)
Definition heap_xy : gmap positive pyobj :=
  {[ 1%positive := ODict ∅;
     2%positive := ODocument "x" 1%positive;
     3%positive := ODict {[ "source" := MStr "y.txt" ]};
     4%positive := ODocument "y" 3%positive ]}.

End Samples.

(** ** Part II: properties *)

(** *** Strings and tables *)

Lemma id_in_values_true (d : string) (df : list RatingRow) :
  id_in_values d df = true <-> d ∈ map fst df.
Proof.
  unfold id_in_values. rewrite existsb_exists. split.
  - intros [x [Hin Heq]]. apply String.eqb_eq in Heq. subst.
    by apply list_elem_of_In.
  - intros Hin. exists d. split; [by apply list_elem_of_In | apply String.eqb_refl].
Qed.

Lemma id_in_values_false (d : string) (df : list RatingRow) :
  id_in_values d df = false <-> d ∉ map fst df.
Proof.
  rewrite <- id_in_values_true. destruct (id_in_values d df); split; congruence.
Qed.

Lemma loc_add_rating_keys (df : list RatingRow) (id : string) (r : Z) :
  map fst (loc_add_rating df id r) = map fst df.
Proof.
  induction df as [|row df IH]; simpl; [done|].
  rewrite IH. by destruct (String.eqb (fst row) id).
Qed.

Lemma rating_at_loc_add (df : list RatingRow) (id d : string) (r : Z) :
  id ∈ map fst df ->
  rating_at (loc_add_rating df id r) d
  = rating_at df d + (if String.eqb id d then r else 0).
Proof.
  induction df as [|row df IH]; simpl; intros Hin.
  - by apply elem_of_nil in Hin.
  - destruct (String.eqb_spec (fst row) id) as [Hid|Hid]; simpl.
    + destruct (String.eqb_spec (fst row) d) as [Hd|Hd].
      * subst. rewrite String.eqb_refl. done.
      * subst. destruct (String.eqb_spec (fst row) d); [done|].
        destruct (decide (fst row ∈ map fst df)) as [Hin'|Hnin].
        -- rewrite IH by done. destruct (String.eqb_spec (fst row) d); [done|lia].
        -- clear IH Hin. induction df as [|row' df IH']; simpl; [lia|].
           apply not_elem_of_cons in Hnin as [Hne Hnin].
           destruct (String.eqb_spec (fst row') (fst row)); [congruence|].
           destruct (String.eqb (fst row') d); [lia|]. by apply IH'.
    + apply elem_of_cons in Hin as [Heq|Hin]; [congruence|].
      destruct (String.eqb_spec (fst row) d) as [Hd|Hd].
      * subst. destruct (String.eqb_spec id (fst row)); [congruence|lia].
      * by apply IH.
Qed.

Lemma rating_at_app_new (df : list RatingRow) (id d : string) (r : Z) :
  id ∉ map fst df ->
  rating_at (df ++ [(id, r)]) d
  = rating_at df d + (if String.eqb id d then r else 0).
Proof.
  induction df as [|row df IH]; simpl; intros Hnin.
  - destruct (String.eqb id d); lia.
  - apply not_elem_of_cons in Hnin as [Hne Hnin].
    destruct (String.eqb_spec (fst row) d) as [Hd|Hd].
    + subst. destruct (String.eqb_spec id (fst row)); [congruence|lia].
    + by apply IH.
Qed.

(** *** The aggregation loop *)

(** The very first visit binds [feedback_rating_df] to the new row and then
    finds the id in it: the rating is added to itself. *)
Lemma accumulate_unbound (id : string) (r : Z) :
  accumulate None id r = Some [(id, r + r)].
Proof.
  unfold accumulate, id_in_values. simpl. by rewrite String.eqb_refl.
Qed.

Lemma accumulate_bound (df : list RatingRow) (id : string) (r : Z) :
  NoDup (map fst df) ->
  exists df',
    accumulate (Some df) id r = Some df'
    /\ NoDup (map fst df')
    /\ (forall d, d ∈ map fst df' <-> d ∈ map fst df \/ d = id)
    /\ (forall d, rating_at df' d = rating_at df d + (if String.eqb id d then r else 0)).
Proof.
  intros Hnd. unfold accumulate.
  destruct (id_in_values id df) eqn:Hin.
  - apply id_in_values_true in Hin.
    exists (loc_add_rating df id r). rewrite loc_add_rating_keys.
    repeat split; try done.
    + by left.
    + intros [?| ->]; done.
    + intros d. by apply rating_at_loc_add.
  - apply id_in_values_false in Hin.
    exists (df ++ [(id, r)]). rewrite map_app. simpl.
    repeat split.
    + apply NoDup_app. repeat split; [done| |apply NoDup_singleton].
      intros x Hx Hx'. apply list_elem_of_singleton in Hx'. by subst.
    + intros Hd. apply elem_of_app in Hd as [Hd|Hd]; [by left|].
      right. by apply list_elem_of_singleton in Hd.
    + intros [Hd| ->]; apply elem_of_app; [by left|right].
      by apply list_elem_of_singleton.
    + intros d. by apply rating_at_app_new.
Qed.

Lemma combiner_record_visits (st : option (list RatingRow)) (r : FeedbackRow) :
  combiner_record st r = fold_left accumulate_visit (visits [r]) st.
Proof.
  unfold combiner_record, visits. simpl. rewrite app_nil_r.
  generalize (split_document_ids (fb_document_id r)) as cells.
  intros cells. revert st.
  induction cells as [|c cells IH]; intros st; simpl; [done|].
  by rewrite IH.
Qed.

Lemma feedback_rating_df_visits (feedback : list FeedbackRow) :
  feedback_rating_df feedback = fold_left accumulate_visit (visits feedback) None.
Proof.
  unfold feedback_rating_df. generalize (@None (list RatingRow)) as st.
  induction feedback as [|r feedback IH]; intros st; simpl; [done|].
  rewrite IH, combiner_record_visits. unfold visits at 3. simpl.
  rewrite app_nil_r.
  change (flat_map _ feedback) with (visits feedback).
  by rewrite fold_left_app.
Qed.

Lemma fold_accumulate_bound (vs : list (string * Z)) (df : list RatingRow) :
  NoDup (map fst df) ->
  exists df',
    fold_left accumulate_visit vs (Some df) = Some df'
    /\ NoDup (map fst df')
    /\ (forall d, d ∈ map fst df' <-> d ∈ map fst df \/ d ∈ map fst vs)
    /\ (forall d, rating_at df' d = rating_at df d + visit_sum vs d).
Proof.
  revert df. induction vs as [|[id r] vs IH]; intros df Hnd; simpl.
  - exists df. repeat split; try done.
    + by left.
    + intros [?|Hd]; [done|]. by apply elem_of_nil in Hd.
    + intros d. lia.
  - replace (accumulate_visit (Some df) (id, r)) with (accumulate (Some df) id r) by done.
    destruct (accumulate_bound df id r Hnd) as (df1 & -> & Hnd1 & Hk1 & Hr1).
    destruct (IH df1 Hnd1) as (df' & -> & Hnd' & Hk' & Hr').
    exists df'. repeat split; try done.
    + intros Hd. apply Hk' in Hd as [Hd|Hd].
      * apply Hk1 in Hd as [Hd| ->]; [by left|]. right. apply elem_of_cons. by left.
      * right. apply elem_of_cons. by right.
    + intros [Hd|Hd]; apply Hk'.
      * left. apply Hk1. by left.
      * apply elem_of_cons in Hd as [->|Hd]; [|by right]. left. apply Hk1. by right.
    + intros d. rewrite Hr', Hr1. lia.
Qed.

(** The table that the loops leave: unbound when nothing was visited;
    otherwise one row per visited id, holding [accumulated_rating]. *)
Lemma feedback_rating_df_spec (feedback : list FeedbackRow) :
  match visits feedback with
  | [] => feedback_rating_df feedback = None
  | _ :: _ =>
      exists df,
        feedback_rating_df feedback = Some df
        /\ NoDup (map fst df)
        /\ (forall d, d ∈ map fst df <-> d ∈ map fst (visits feedback))
        /\ (forall d, rating_at df d = accumulated_rating (visits feedback) d)
  end.
Proof.
  rewrite feedback_rating_df_visits.
  destruct (visits feedback) as [|[id r] vs]; [done|].
  cbn [fold_left].
  replace (accumulate_visit None (id, r)) with (Some [(id, r + r)])
    by (symmetry; apply accumulate_unbound).
  destruct (fold_accumulate_bound vs [(id, r + r)]) as (df & -> & Hnd & Hk & Hr).
  { simpl. apply NoDup_singleton. }
  exists df. repeat split; try done.
  - intros Hd. apply Hk in Hd as [Hd|Hd].
    + apply list_elem_of_singleton in Hd. subst. apply elem_of_cons. by left.
    + apply elem_of_cons. by right.
  - intros Hd. apply Hk. apply elem_of_cons in Hd as [->|Hd]; [left|by right].
    by apply list_elem_of_singleton.
  - intros d. rewrite Hr. simpl. destruct (String.eqb id d); lia.
Qed.

(** Every record has at least one cell, so a non-empty feedback frame
    always binds the table. *)
Lemma split_nonempty (sep : ascii) (s : string) : PyStr.split sep s <> [].
Proof.
  destruct s as [|c s]; simpl; [done|].
  destruct (Ascii.eqb c sep); [done|]. by destruct (PyStr.split sep s).
Qed.

Lemma visits_nonempty (r : FeedbackRow) (feedback : list FeedbackRow) :
  visits (r :: feedback) <> [].
Proof.
  unfold visits. simpl. unfold split_document_ids.
  pose proof (split_nonempty ","%char
    (PyStr.replace PyStr.sp_dquote_sp EmptyString
       (PyStr.replace "]" EmptyString (PyStr.replace "[" EmptyString (fb_document_id r)))))
    as Hne.
  destruct (PyStr.split _ _); [done|]. simpl. done.
Qed.

(** *** The left merge *)

Lemma filter_key_absent (df : list RatingRow) (d : string) :
  d ∉ map fst df -> filter (fun row : RatingRow => String.eqb (fst row) d) df = [].
Proof.
  induction df as [|row df IH]; simpl; intros Hnin; [done|].
  apply not_elem_of_cons in Hnin as [Hne Hnin].
  rewrite filter_cons. destruct (String.eqb_spec (fst row) d); [congruence|].
  simpl. by apply IH.
Qed.

Lemma filter_key_unique (df : list RatingRow) (d : string) :
  NoDup (map fst df) -> d ∈ map fst df ->
  filter (fun row : RatingRow => String.eqb (fst row) d) df = [(d, rating_at df d)].
Proof.
  induction df as [|row df IH]; simpl; intros Hnd Hin.
  - by apply elem_of_nil in Hin.
  - apply NoDup_cons in Hnd as [Hnin Hnd]. rewrite filter_cons.
    destruct (String.eqb_spec (fst row) d) as [Hd|Hd]; simpl.
    + subst. rewrite filter_key_absent by done. by destruct row.
    + apply elem_of_cons in Hin as [Heq|Hin]; [congruence|]. by apply IH.
Qed.

Lemma rating_at_absent (df : list RatingRow) (d : string) :
  d ∉ map fst df -> rating_at df d = 0.
Proof.
  induction df as [|row df IH]; simpl; intros Hnin; [done|].
  apply not_elem_of_cons in Hnin as [Hne Hnin].
  destruct (String.eqb_spec (fst row) d); [congruence|]. by apply IH.
Qed.

Lemma merge_fillna_spec (documents_lst : list string) (df : list RatingRow) :
  NoDup (map fst df) ->
  map (fun row => (fst row, fillna0 (snd row))) (merge_left_ratings documents_lst df)
  = map (fun d => (d, rating_at df d)) documents_lst.
Proof.
  intros Hnd. unfold merge_left_ratings.
  induction documents_lst as [|d ds IH]; [done|].
  cbn [flat_map map]. rewrite map_app, IH.
  change ((d, rating_at df d) :: map (fun d => (d, rating_at df d)) ds)
    with ([(d, rating_at df d)] ++ map (fun d => (d, rating_at df d)) ds).
  f_equal. unfold left_rows_ratings.
  destruct (decide (d ∈ map fst df)) as [Hin|Hnin].
  - rewrite filter_key_unique by done. done.
  - rewrite filter_key_absent by done. simpl. by rewrite rating_at_absent.
Qed.

(** What [combiner] returns: it raises when no cell was visited, and
    otherwise gives one row per candidate, in the order of the candidates,
    holding the accumulated rating. *)
Lemma combiner_spec (feedback : list FeedbackRow) (documents_lst : list string) :
  combiner feedback documents_lst
  = match visits feedback with
    | [] => Raise (UnboundLocalError "feedback_rating_df")
    | _ :: _ =>
        Ok (map (fun d => (d, accumulated_rating (visits feedback) d)) documents_lst)
    end.
Proof.
  unfold combiner. pose proof (feedback_rating_df_spec feedback) as Hs.
  destruct (visits feedback) as [|v vs].
  - by rewrite Hs.
  - destruct Hs as (df & -> & Hnd & _ & Hr).
    rewrite merge_fillna_spec by done. f_equal.
    apply map_ext. intros d. by rewrite Hr.
Qed.

(** *** Aggregation: what depends on the order, and what does not *)

Lemma visit_sum_app (vs ws : list (string * Z)) (d : string) :
  visit_sum (vs ++ ws) d = visit_sum vs d + visit_sum ws d.
Proof. induction vs as [|v vs IH]; simpl; [done|]. rewrite IH. lia. Qed.

Lemma visit_sum_Permutation (vs ws : list (string * Z)) (d : string) :
  Permutation vs ws -> visit_sum vs d = visit_sum ws d.
Proof.
  induction 1 as [|v vs ws _ IH|v w vs|vs ws us _ IH1 _ IH2]; simpl; lia.
Qed.

Lemma visit_sum_unseen (vs : list (string * Z)) (d : string) :
  d ∉ map fst vs -> visit_sum vs d = 0.
Proof.
  induction vs as [|v vs IH]; simpl; intros Hnin; [done|].
  apply not_elem_of_cons in Hnin as [Hne Hnin].
  destruct (String.eqb_spec (fst v) d); [congruence|]. rewrite IH by done. lia.
Qed.

Lemma accumulated_rating_unseen (vs : list (string * Z)) (d : string) :
  d ∉ map fst vs -> accumulated_rating vs d = 0.
Proof.
  intros Hnin. destruct vs as [|v vs]; [done|].
  unfold accumulated_rating. rewrite visit_sum_unseen by done.
  simpl in Hnin. apply not_elem_of_cons in Hnin as [Hne _].
  destruct (String.eqb_spec (fst v) d); [congruence|]. lia.
Qed.

(** Once the first visit is fixed, the order of the others is immaterial. *)
Lemma combiner_order_after_first (feedback feedback' : list FeedbackRow)
    (v : string * Z) (vs vs' : list (string * Z)) (documents_lst : list string) :
  visits feedback = v :: vs -> visits feedback' = v :: vs' -> Permutation vs vs' ->
  combiner feedback documents_lst = combiner feedback' documents_lst.
Proof.
  intros Hv Hv' Hp. rewrite !combiner_spec, Hv, Hv'. f_equal.
  apply map_ext. intros d. unfold accumulated_rating. simpl.
  by rewrite (visit_sum_Permutation vs vs' d Hp).
Qed.

Lemma visits_elem (feedback : list FeedbackRow) (r : FeedbackRow) (d : string) :
  r ∈ feedback -> d ∈ record_ids r -> d ∈ map fst (visits feedback).
Proof.
  intros Hr Hd. unfold visits. rewrite list_elem_of_In, in_map_iff.
  exists (d, fb_rating r). split; [done|]. apply in_flat_map.
  exists r. split; [by apply list_elem_of_In|].
  unfold record_ids in Hd. rewrite list_elem_of_In, in_map_iff in Hd.
  destruct Hd as (cell & <- & Hcell). apply in_map_iff. by exists cell.
Qed.

(** The lexical default: a candidate that no feedback record names gets
    rating 0, as soon as the feedback frame has a row. *)
Lemma combiner_unseen_rating_zero (r : FeedbackRow) (feedback : list FeedbackRow)
    (documents_lst : list string) :
  exists table,
    combiner (r :: feedback) documents_lst = Ok table
    /\ map fst table = documents_lst
    /\ forall row, row ∈ table -> fst row ∉ map fst (visits (r :: feedback)) -> snd row = 0.
Proof.
  rewrite combiner_spec. pose proof (visits_nonempty r feedback) as Hne.
  destruct (visits (r :: feedback)) as [|v vs] eqn:Hv; [done|].
  eexists. split; [done|]. split.
  - rewrite map_map. simpl. apply map_id.
  - intros row Hrow Hnin. rewrite list_elem_of_In, in_map_iff in Hrow.
    destruct Hrow as (d & <- & _).
    exact (accumulated_rating_unseen (v :: vs) d Hnin).
Qed.

(** *** Claims about the aggregation *)

(** C1 (the code departs from the claim).  On the scenario of the spec, two
    records, ids a and b with rating 2 and then id b with rating 1,
    [combiner] returns 4 for a and 3 for b, where the claim and the sum over
    the records that name the id give 2 and 3: the first id visited has its
    rating counted twice.  (When the list is serialized with a blank after
    the comma, a still gets 4, and the second cell is no longer the id b.) *)
Theorem C1_scenario_first_id_counted_twice :
  combiner [Samples.rec_ab; Samples.rec_b] ["a"; "b"] = Ok [("a", 4); ("b", 3)]
  /\ cumulative_rating_spec [Samples.rec_ab; Samples.rec_b] "a" = 2
  /\ cumulative_rating_spec [Samples.rec_ab; Samples.rec_b] "b" = 3
  /\ combiner [Samples.rec_ab_blank; Samples.rec_b] ["a"; "b"] = Ok [("a", 4); ("b", 1)].
Proof. by vm_compute. Qed.

(** C2 (the code departs from the claim).  Swapping two feedback records
    changes the mapping that [combiner] returns: the id visited first is the
    one counted twice. *)
Theorem C2_swapped_records_change_result :
  Permutation [Samples.rec_a1; Samples.rec_b1] [Samples.rec_b1; Samples.rec_a1]
  /\ combiner [Samples.rec_a1; Samples.rec_b1] ["a"; "b"] = Ok [("a", 2); ("b", 1)]
  /\ combiner [Samples.rec_b1; Samples.rec_a1] ["a"; "b"] = Ok [("a", 1); ("b", 2)].
Proof. split; [apply perm_swap|]. by vm_compute. Qed.

(** C7, counterexample.  A record whose id list is empty has one cell, which
    trims to the empty string; that id gets a row of the rating table and,
    the empty string being a candidate, a row of the returned mapping. *)
Lemma C7_empty_id_enters_mapping :
  record_ids Samples.rec_none = [EmptyString]
  /\ feedback_rating_df [Samples.rec_a1; Samples.rec_none]
     = Some [("a", 2); (EmptyString, 5)]
  /\ combiner [Samples.rec_a1; Samples.rec_none] [EmptyString; "a"]
     = Ok [(EmptyString, 5); ("a", 2)].
Proof. by vm_compute. Qed.

(** C7, as amended.  An identifier that is the empty string after trimming
    is not dropped: it gets a row of the rating table like any other
    identifier, and it is in the mapping that [combiner] returns exactly
    when the empty string is one of the candidate document ids. *)
Theorem C7_empty_id_kept (feedback : list FeedbackRow) (documents_lst : list string)
    (r : FeedbackRow) :
  r ∈ feedback -> EmptyString ∈ record_ids r ->
  (exists df, feedback_rating_df feedback = Some df /\ EmptyString ∈ map fst df)
  /\ (exists table,
        combiner feedback documents_lst = Ok table
        /\ map fst table = documents_lst
        /\ (EmptyString ∈ map fst table <-> EmptyString ∈ documents_lst)).
Proof.
  intros Hr Hd. pose proof (visits_elem feedback r _ Hr Hd) as Hv.
  pose proof (feedback_rating_df_spec feedback) as Hs.
  pose proof (combiner_spec feedback documents_lst) as Hc.
  destruct (visits feedback) as [|v vs]; [by apply elem_of_nil in Hv|].
  destruct Hs as (df & Hdf & _ & Hk & _). split.
  - exists df. split; [done|]. by apply Hk.
  - eexists. split; [exact Hc|].
    assert (map fst (map (fun d => (d, accumulated_rating (v :: vs) d)) documents_lst)
            = documents_lst) as Hfst.
    { rewrite map_map. simpl. apply map_id. }
    split; [done|]. by rewrite Hfst.
Qed.

Lemma C7_empty_id_kept_witness :
  (exists df, feedback_rating_df [Samples.rec_a1; Samples.rec_none] = Some df
              /\ EmptyString ∈ map fst df)
  /\ (exists table,
        combiner [Samples.rec_a1; Samples.rec_none] ["a"] = Ok table
        /\ map fst table = ["a"]
        /\ (EmptyString ∈ map fst table <-> EmptyString ∈ ["a"])).
Proof.
  apply (C7_empty_id_kept [Samples.rec_a1; Samples.rec_none] ["a"] Samples.rec_none).
  - apply elem_of_cons. right. apply elem_of_cons. by left.
  - vm_compute. apply elem_of_cons. by left.
Defined.

(** *** Python's [sorted] is a stable sort *)

Lemma Qltb_true (x y : Q) : Qltb x y = true <-> (x < y)%Q.
Proof.
  unfold Qltb. rewrite Qlt_alt. destruct (x ?= y)%Q; split; congruence.
Qed.

Lemma Qltb_false (x y : Q) : Qltb x y = false <-> (y <= x)%Q.
Proof.
  rewrite <- not_true_iff_false, Qltb_true. split.
  - apply Qnot_lt_le.
  - intros Hle Hlt. by apply (Qlt_not_le x y).
Qed.

Section SortedProps.
Context {A : Type} (key : A -> Q).

Lemma insert_stable_perm (x : A) (l : list A) : insert_stable key x l ≡ₚ x :: l.
Proof.
  induction l as [|y l IH]; simpl; [done|].
  destruct (Qltb (key y) (key x)); [|done].
  rewrite IH. apply perm_swap.
Qed.

Lemma sort_stable_perm (l : list A) : sort_stable key l ≡ₚ l.
Proof.
  induction l as [|x l IH]; simpl; [done|].
  rewrite insert_stable_perm. by rewrite IH.
Qed.

Lemma insert_stable_sorted (x : A) (l : list A) :
  StronglySorted (key_le key) l -> StronglySorted (key_le key) (insert_stable key x l).
Proof.
  induction l as [|y l IH]; simpl; intros Hs.
  - repeat constructor.
  - apply StronglySorted_cons in Hs as [Hall Hs].
    destruct (Qltb (key y) (key x)) eqn:Hlt.
    + apply Qltb_true in Hlt. apply StronglySorted_cons. split; [|by apply IH].
      rewrite (insert_stable_perm x l). constructor; [|done].
      by apply Qlt_le_weak.
    + apply Qltb_false in Hlt. apply StronglySorted_cons. split.
      * constructor; [done|]. eapply Forall_impl; [exact Hall|].
        intros z Hz. unfold key_le in *. by apply (Qle_trans _ (key y)).
      * by apply StronglySorted_cons.
Qed.

Lemma sort_stable_sorted (l : list A) : StronglySorted (key_le key) (sort_stable key l).
Proof.
  induction l as [|x l IH]; simpl; [constructor|]. by apply insert_stable_sorted.
Qed.

(** An element passes only strictly smaller keys, so it stays the first
    of its ties. *)
Lemma insert_stable_ties (k : Q) (x : A) (l : list A) :
  filter (fun a => key a == k)%Q (insert_stable key x l)
  = filter (fun a => key a == k)%Q (x :: l).
Proof.
  induction l as [|y l IH]; simpl; [done|].
  destruct (Qltb (key y) (key x)) eqn:Hlt; [|done].
  apply Qltb_true in Hlt.
  rewrite (filter_cons _ y), IH, !(filter_cons _ x), (filter_cons _ y).
  destruct (decide (key y == k)%Q) as [Hy|Hy]; [|done].
  destruct (decide (key x == k)%Q) as [Hx|Hx]; [|done].
  exfalso. rewrite Hy, Hx in Hlt. by apply (Qlt_irrefl k).
Qed.

Lemma sort_stable_ties (k : Q) (l : list A) :
  filter (fun a => key a == k)%Q (sort_stable key l) = filter (fun a => key a == k)%Q l.
Proof.
  induction l as [|x l IH]; simpl; [done|].
  rewrite insert_stable_ties, !(filter_cons _ x), IH. done.
Qed.

Lemma rev_reverse_eq (l : list A) : List.rev l = reverse l.
Proof. by rewrite rev_alt. Qed.

Lemma StronglySorted_rev (l : list A) :
  StronglySorted (key_le key) l -> StronglySorted (key_ge key) (List.rev l).
Proof.
  induction l as [|x l IH]; simpl; intros Hs; [constructor|].
  apply StronglySorted_cons in Hs as [Hall Hs].
  apply StronglySorted_app_2; [|by apply IH|repeat constructor].
  intros a b Ha Hb. apply list_elem_of_singleton in Hb. subst.
  apply list_elem_of_In, in_rev, list_elem_of_In in Ha.
  rewrite Forall_forall in Hall. by apply Hall.
Qed.

(** [sorted(l, key=key, reverse=True)] is a permutation of [l], descending
    by key, that keeps the elements of equal key in the order of [l]. *)
Lemma py_sorted_reverse_perm (l : list A) : py_sorted key true l ≡ₚ l.
Proof.
  simpl. rewrite !rev_reverse_eq, reverse_Permutation, sort_stable_perm.
  apply reverse_Permutation.
Qed.

Lemma py_sorted_reverse_sorted (l : list A) :
  StronglySorted (key_ge key) (py_sorted key true l).
Proof. simpl. apply StronglySorted_rev, sort_stable_sorted. Qed.

Lemma py_sorted_reverse_ties (k : Q) (l : list A) :
  filter (fun a => key a == k)%Q (py_sorted key true l)
  = filter (fun a => key a == k)%Q l.
Proof.
  simpl. rewrite !rev_reverse_eq, filter_reverse, sort_stable_ties, filter_reverse.
  apply reverse_involutive.
Qed.

End SortedProps.

(** *** The semantic path *)

Lemma combine_diag {A : Type} (l : list A) : combine l l = map (fun x => (x, x)) l.
Proof. induction l as [|x l IH]; simpl; [done|]. by rewrite IH. Qed.

Lemma slice_to_prefix {A : Type} (stop : Z) (l : list A) : slice_to stop l `prefix_of` l.
Proof. unfold slice_to. destruct (0 <=? stop)%Z; apply prefix_take. Qed.

Lemma slice_to_length {A : Type} (stop : Z) (l : list A) :
  (0 <= stop)%Z ->
  length (slice_to stop l) = Z.to_nat (Z.min stop (Z.of_nat (length l))).
Proof.
  intros Hstop. unfold slice_to.
  destruct (Z.leb_spec 0 stop) as [_|Hneg]; [|lia].
  rewrite length_take. lia.
Qed.

Lemma slice_to_all {A : Type} (stop : Z) (l : list A) :
  (Z.of_nat (length l) <= stop)%Z -> slice_to stop l = l.
Proof.
  intros Hstop. unfold slice_to.
  destruct (Z.leb_spec 0 stop) as [_|Hneg]; [|lia].
  apply take_ge. lia.
Qed.

(** The comprehension of lines 92-102, with the self-zip of line 101
    resolved: both [score] and [cross_encoder_score] are the second
    component of the same pair. *)
Lemma compress_documents_ranked (self : FeedbackAwareCrossEncoderReranker)
    (documents : list Document) (query : string) :
  compress_documents self documents query
  = map (fun p => annotate self (fst p) (snd p) (snd p)) (ranked self documents query).
Proof.
  unfold compress_documents, ranked. rewrite combine_diag, map_map. done.
Qed.

Lemma annotate_metadata (self : FeedbackAwareCrossEncoderReranker)
    (doc : Document) (score ce : Q) :
  page_content (annotate self doc score ce) = page_content doc
  /\ metadata (annotate self doc score ce) !! "relevance_score" = Some (MNum score)
  /\ metadata (annotate self doc score ce) !! "cross_encoder_score" = Some (MNum ce)
  /\ metadata (annotate self doc score ce) !! "feedback_score"
     = Some (MNum (_get_document_feedback_score self doc))
  /\ forall k, k ∉ score_keys ->
       metadata (annotate self doc score ce) !! k = metadata doc !! k.
Proof.
  unfold annotate. simpl. repeat split.
  - by rewrite lookup_insert_ne, lookup_insert_ne, lookup_insert_eq.
  - by rewrite lookup_insert_ne, lookup_insert_eq.
  - by rewrite lookup_insert_eq.
  - intros k Hk. unfold score_keys in Hk.
    rewrite !not_elem_of_cons in Hk. destruct Hk as (H1 & H2 & H3 & _).
    by rewrite !lookup_insert_ne.
Qed.

Lemma docs_with_scores_lookup (self : FeedbackAwareCrossEncoderReranker)
    (documents : list Document) (query : string) (i : nat) (doc : Document) (ce : Q) :
  documents !! i = Some doc ->
  cross_encoder_scores self documents query !! i = Some ce ->
  docs_with_scores self documents query !! i
  = Some (doc, combined_score_of self ce (_get_document_feedback_score self doc)).
Proof.
  unfold docs_with_scores.
  generalize (cross_encoder_scores self documents query) as scores.
  intros scores. revert i scores.
  induction documents as [|d ds IH]; intros i scores Hd Hs; [done|].
  destruct scores as [|c cs]; [done|].
  destruct i as [|i]; simpl in *.
  - by simplify_eq.
  - by apply IH.
Qed.

Lemma docs_with_scores_fst (self : FeedbackAwareCrossEncoderReranker)
    (documents : list Document) (query : string) :
  map fst (docs_with_scores self documents query) `prefix_of` documents.
Proof.
  unfold docs_with_scores.
  generalize (cross_encoder_scores self documents query) as scores.
  intros scores. revert scores.
  induction documents as [|d ds IH]; intros scores; [done|].
  destruct scores as [|c cs]; simpl.
  - apply prefix_nil.
  - apply prefix_cons, IH.
Qed.

Lemma docs_with_scores_fst_full (self : FeedbackAwareCrossEncoderReranker)
    (documents : list Document) (query : string) :
  length (cross_encoder_scores self documents query) = length documents ->
  map fst (docs_with_scores self documents query) = documents.
Proof.
  unfold docs_with_scores.
  generalize (cross_encoder_scores self documents query) as scores.
  intros scores. revert scores.
  induction documents as [|d ds IH]; intros scores Hlen; [done|].
  destruct scores as [|c cs]; simpl in *; [done|].
  f_equal. apply IH. lia.
Qed.

(** The three defaults and the mean of [_get_document_feedback_score]. *)
Lemma feedback_score_no_table (self : FeedbackAwareCrossEncoderReranker) (doc : Document) :
  feedback_df self = None -> _get_document_feedback_score self doc = 1 # 2.
Proof. intros H. unfold _get_document_feedback_score. by rewrite H. Qed.

Lemma feedback_score_no_row (self : FeedbackAwareCrossEncoderReranker) (doc : Document)
    (df : list NameRatingRow) :
  feedback_df self = Some df ->
  (forall r, r ∈ df ->
     default (MStr EmptyString) (metadata doc !! "source") <> MStr (document_name r)) ->
  _get_document_feedback_score self doc = 1 # 2.
Proof.
  intros Hdf Hno. unfold _get_document_feedback_score. rewrite Hdf.
  destruct (filter _ df) as [|r rs] eqn:Hf; [done|].
  assert (r ∈ filter (name_eq_source (default (MStr EmptyString) (metadata doc !! "source"))) df)
    as Hr by (rewrite Hf; apply elem_of_cons; by left).
  apply list_elem_of_filter in Hr as [Hm Hr]. exfalso. apply (Hno r Hr).
  unfold name_eq_source in Hm.
  destruct (default _ _) as [s0|x]; [|done].
  apply Is_true_true, String.eqb_eq in Hm. by subst.
Qed.

Lemma feedback_score_mean (self : FeedbackAwareCrossEncoderReranker) (doc : Document)
    (df : list NameRatingRow) (r : NameRatingRow) :
  feedback_df self = Some df -> r ∈ df ->
  default (MStr EmptyString) (metadata doc !! "source") = MStr (document_name r) ->
  _get_document_feedback_score self doc
  = series_mean (map total_rating
      (filter (name_eq_source (MStr (document_name r))) df)).
Proof.
  intros Hdf Hr Hsrc. unfold _get_document_feedback_score. rewrite Hdf, Hsrc.
  destruct (filter _ df) as [|r0 rs] eqn:Hf; [|done].
  exfalso. assert (r ∈ filter (name_eq_source (MStr (document_name r))) df) as Hin.
  { apply list_elem_of_filter. split; [|done]. simpl.
    apply Is_true_true, String.eqb_refl. }
  rewrite Hf in Hin. by apply elem_of_nil in Hin.
Qed.

(** Each returned document carries, under [relevance_score] and under
    [cross_encoder_score] alike, the combined score of the pair it comes
    from, and under [feedback_score] the feedback score of its source. *)
Lemma compress_documents_annotations (self : FeedbackAwareCrossEncoderReranker)
    (documents : list Document) (query : string) :
  Forall2 (fun out p =>
             page_content out = page_content (fst p)
             /\ metadata_num out "relevance_score" = Some (snd p)
             /\ metadata_num out "cross_encoder_score" = Some (snd p)
             /\ metadata_num out "feedback_score"
                = Some (_get_document_feedback_score self (fst p))
             /\ forall k, k ∉ score_keys -> metadata out !! k = metadata (fst p) !! k)
          (compress_documents self documents query) (ranked self documents query).
Proof.
  rewrite compress_documents_ranked.
  induction (ranked self documents query) as [|p ps IH]; simpl; constructor; [|done].
  destruct (annotate_metadata self (fst p) (snd p) (snd p)) as (Hc & Hr & Hx & Hf & Hk).
  unfold metadata_num. by rewrite Hr, Hx, Hf.
Qed.

(** *** Claims about the semantic path *)


(** C8.  Lexical fusion is [alpha * r + beta * f], called with the defaults
    0.7 and 0.3 for every row of the merged frame; semantic fusion is
    [(1 - feedback_weight) * cross_encoder_score + feedback_weight *
    feedback_score] for every scored document. *)
Theorem C8_fusion_formulas :
  (forall r f alpha beta : Q,
     compute_relevance_score r f alpha beta = (alpha * r + beta * f)%Q)
  /\ (forall (rows : list Bm25Row) (combined_df : list RatingRow) (row : RankedRow),
        row ∈ scored_frame rows combined_df ->
        relevance_score row
        = option_map (fun f => ((7 # 10) * m_bm25_score (merged row)
                                + (3 # 10) * inject_Z f)%Q)
            (m_rating (merged row)))
  /\ (forall (self : FeedbackAwareCrossEncoderReranker) (documents : list Document)
             (query : string) (i : nat) (doc : Document) (ce : Q),
        documents !! i = Some doc ->
        cross_encoder_scores self documents query !! i = Some ce ->
        docs_with_scores self documents query !! i
        = Some (doc, ((1 - feedback_weight self) * ce
                      + feedback_weight self * _get_document_feedback_score self doc)%Q)).
Proof.
  split; [done|]. split.
  - intros rows combined_df row Hrow. unfold scored_frame in Hrow.
    rewrite list_elem_of_In, in_map_iff in Hrow. destruct Hrow as (m & <- & _).
    simpl. unfold relevance_of_row. by destruct (m_rating m).
  - intros self documents query i doc ce Hd Hs.
    by rewrite (docs_with_scores_lookup self documents query i doc ce).
Qed.

(** *** Missing feedback and empty inputs *)

(** The lexical default reaches fusion: with a feedback frame that has a
    row, a candidate that no record names is fused with feedback score 0. *)
Lemma scored_frame_unseen_rating_zero (r : FeedbackRow) (feedback : list FeedbackRow)
    (documents_lst : list string) (combined_df : list RatingRow)
    (rows : list Bm25Row) (row : RankedRow) :
  combiner (r :: feedback) documents_lst = Ok combined_df ->
  row ∈ scored_frame rows combined_df ->
  m_document (merged row) ∈ documents_lst ->
  m_document (merged row) ∉ map fst (visits (r :: feedback)) ->
  m_rating (merged row) = Some 0
  /\ relevance_score row
     = Some (compute_relevance_score (m_bm25_score (merged row)) 0
               default_alpha default_beta).
Proof.
  intros Hc Hrow Hdoc Hunseen.
  destruct (combiner_unseen_rating_zero r feedback documents_lst)
    as (table & Htable & Hkeys & Hzero).
  rewrite Hc in Htable. injection Htable as <-.
  unfold scored_frame in Hrow. rewrite list_elem_of_In, in_map_iff in Hrow.
  destruct Hrow as (m & <- & Hm). simpl in *.
  unfold merge_left_on_document in Hm. apply in_flat_map in Hm as (l & _ & Hm).
  unfold left_rows_on_document in Hm.
  destruct (filter _ combined_df) as [|r0 rs] eqn:Hf.
  - exfalso. apply list_elem_of_In, list_elem_of_singleton in Hm. subst m. simpl in *.
    rewrite <- Hkeys in Hdoc. rewrite list_elem_of_In, in_map_iff in Hdoc.
    destruct Hdoc as (r' & Hr' & Hin).
    assert (r' ∈ filter (fun r1 : RatingRow => String.eqb (document l) (fst r1)) combined_df)
      as Hin'.
    { apply list_elem_of_filter. split; [|by apply list_elem_of_In].
      rewrite Hr'. apply Is_true_true, String.eqb_refl. }
    rewrite Hf in Hin'. by apply elem_of_nil in Hin'.
  - apply in_map_iff in Hm as (r' & <- & Hr'). simpl in *.
    assert (r' ∈ filter (fun r1 : RatingRow => String.eqb (document l) (fst r1)) combined_df)
      as Hin' by (rewrite Hf; by apply list_elem_of_In).
    apply list_elem_of_filter in Hin' as [Hkey Hin'].
    apply Is_true_true, String.eqb_eq in Hkey.
    assert (snd r' = 0) as Hz by (apply Hzero; [done|by rewrite <- Hkey]).
    unfold relevance_of_row. simpl. by rewrite Hz.
Qed.

(** C5 (the code departs from the claim).  On the empty feedback frame the
    loops of [combiner] never bind [feedback_rating_df], and the merge of
    line 83 raises [UnboundLocalError]: no candidate gets the default 0, and
    the lexical path stops there. *)
Theorem C5_empty_feedback_raises
    (BM25Okapi_get_scores : list (list string) -> list string -> pyresult (list Q))
    (sort_values_desc : list RankedRow -> list RankedRow)
    (documents_lst : list string) (query : string) :
  combiner [] documents_lst = Raise (UnboundLocalError "feedback_rating_df")
  /\ main_reranker BM25Okapi_get_scores sort_values_desc [] documents_lst query
     = Raise (UnboundLocalError "feedback_rating_df").
Proof. done. Qed.

(** The semantic path does return the empty list on no candidate. *)
Lemma compress_documents_nil (self : FeedbackAwareCrossEncoderReranker) (query : string) :
  compress_documents self [] query = [].
Proof.
  rewrite compress_documents_ranked. unfold ranked, sorted_result, docs_with_scores.
  simpl. unfold slice_to. by destruct (0 <=? top_n self)%Z; rewrite take_nil.
Qed.

(** C6 (the code departs from the claim).  On an empty candidate sequence
    the lexical path raises, whatever the BM25 scorer does: if the scorer
    returns, [retrieved_docs] is the empty list, its frame has no column,
    and the merge of line 150 raises [KeyError] on [document]. *)
Theorem C6_lexical_empty_candidates_raise
    (BM25Okapi_get_scores : list (list string) -> list string -> pyresult (list Q))
    (sort_values_desc : list RankedRow -> list RankedRow)
    (feedback : list FeedbackRow) (combined_df : list RatingRow) (query : string) :
  (exists e, rerank_documents_with_feedback BM25Okapi_get_scores sort_values_desc
               query [] feedback combined_df = Raise e)
  /\ (exists e, main_reranker BM25Okapi_get_scores sort_values_desc feedback [] query
                = Raise e).
Proof.
  assert (forall cdf, exists e,
            rerank_documents_with_feedback BM25Okapi_get_scores sort_values_desc
              query [] feedback cdf = Raise e) as Hrr.
  { intros cdf. unfold rerank_documents_with_feedback, retrieve_with_bm25. simpl.
    destruct (BM25Okapi_get_scores [] (PyStr.split_ws query)) as [scores|e]; simpl.
    - by exists (KeyError "document").
    - by exists e. }
  split; [apply Hrr|].
  unfold main_reranker. destruct (combiner feedback []) as [cdf|e]; simpl.
  - destruct (Hrr cdf) as [e ->]. by exists e.
  - by exists e.
Qed.

(** *** The two sorts *)

Lemma score_geb_true (a b : option Q) : Samples.score_geb a b = true -> score_ge a b.
Proof.
  destruct a as [x|], b as [y|]; simpl; try done.
  intros H. by apply Qle_bool_iff.
Qed.

Lemma score_geb_false (a b : option Q) : Samples.score_geb a b = false -> score_ge b a.
Proof.
  destruct a as [x|], b as [y|]; simpl; try done.
  intros H. destruct (Qlt_le_dec x y) as [Hlt|Hle].
  - by apply Qlt_le_weak.
  - apply Qle_bool_iff in Hle. congruence.
Qed.

Lemma score_ge_trans (a b c : option Q) : score_ge a b -> score_ge b c -> score_ge a c.
Proof.
  destruct a as [x|], b as [y|], c as [z|]; simpl; try done.
  intros Hxy Hyz. by apply (Qle_trans _ y).
Qed.

Lemma insert_desc_perm (x : RankedRow) (l : list RankedRow) :
  Samples.insert_desc x l ≡ₚ x :: l.
Proof.
  induction l as [|y l IH]; simpl; [done|].
  destruct (Samples.score_geb _ _); [done|]. rewrite IH. apply perm_swap.
Qed.

Lemma insert_desc_sorted (x : RankedRow) (l : list RankedRow) :
  StronglySorted rank_ge l -> StronglySorted rank_ge (Samples.insert_desc x l).
Proof.
  induction l as [|y l IH]; simpl; intros Hs.
  - repeat constructor.
  - apply StronglySorted_cons in Hs as [Hall Hs].
    destruct (Samples.score_geb _ _) eqn:Hge.
    + apply score_geb_true in Hge. apply StronglySorted_cons. split.
      * constructor; [done|]. eapply Forall_impl; [exact Hall|].
        intros z Hz. unfold rank_ge in *. by apply (score_ge_trans _ (relevance_score y)).
      * by apply StronglySorted_cons.
    + apply score_geb_false in Hge. apply StronglySorted_cons. split; [|by apply IH].
      rewrite (insert_desc_perm x l). by constructor.
Qed.

Lemma sort_desc_contract : sort_values_contract Samples.sort_desc.
Proof.
  intros l. unfold Samples.sort_desc. split.
  - induction l as [|x l IH]; simpl; [done|].
    rewrite insert_desc_perm. by rewrite IH.
  - induction l as [|x l IH]; simpl; [constructor|].
    by apply insert_desc_sorted.
Qed.

(** [result] of line 89: the scored documents, descending by combined
    score, the documents of equal score in the order of the candidates. *)
Lemma sorted_result_spec (self : FeedbackAwareCrossEncoderReranker)
    (documents : list Document) (query : string) :
  sorted_result self documents query ≡ₚ docs_with_scores self documents query
  /\ StronglySorted (key_ge snd) (sorted_result self documents query)
  /\ forall k : Q,
       filter (fun p => snd p == k)%Q (sorted_result self documents query)
       = filter (fun p => snd p == k)%Q (docs_with_scores self documents query).
Proof.
  unfold sorted_result. split; [apply py_sorted_reverse_perm|].
  split; [apply py_sorted_reverse_sorted|].
  intros k. apply (py_sorted_reverse_ties snd).
Qed.

Lemma ranked_spec (self : FeedbackAwareCrossEncoderReranker)
    (documents : list Document) (query : string) :
  StronglySorted (key_ge snd) (ranked self documents query)
  /\ forall k : Q,
       filter (fun p => snd p == k)%Q (ranked self documents query)
       `prefix_of` filter (fun p => snd p == k)%Q (docs_with_scores self documents query).
Proof.
  destruct (sorted_result_spec self documents query) as (_ & Hs & Ht).
  destruct (slice_to_prefix (top_n self) (sorted_result self documents query))
    as [rest Hrest].
  fold (ranked self documents query) in Hrest. rewrite Hrest in Hs, Ht. split.
  - by apply StronglySorted_app_1_l in Hs.
  - intros k. rewrite <- Ht, filter_app. by apply prefix_app_r.
Qed.

(** *** The order and the number of the documents returned *)

Lemma ranked_elem (self : FeedbackAwareCrossEncoderReranker)
    (documents : list Document) (query : string) (p : Document * Q) :
  p ∈ ranked self documents query -> p ∈ docs_with_scores self documents query.
Proof.
  intros Hp.
  destruct (slice_to_prefix (top_n self) (sorted_result self documents query))
    as [rest Hrest].
  fold (ranked self documents query) in Hrest.
  destruct (sorted_result_spec self documents query) as (Hperm & _).
  rewrite <- Hperm, Hrest. apply elem_of_app. by left.
Qed.

Lemma docs_with_scores_fst_take (self : FeedbackAwareCrossEncoderReranker)
    (documents : list Document) (query : string) :
  map fst (docs_with_scores self documents query)
  = take (length (cross_encoder_scores self documents query)) documents.
Proof.
  unfold docs_with_scores.
  generalize (cross_encoder_scores self documents query) as scores.
  intros scores. revert scores.
  induction documents as [|d ds IH]; intros scores.
  - by destruct scores.
  - destruct scores as [|c cs]; [done|]. simpl. by rewrite IH.
Qed.

Lemma sorted_result_length (self : FeedbackAwareCrossEncoderReranker)
    (documents : list Document) (query : string) :
  length (sorted_result self documents query)
  = Nat.min (length (cross_encoder_scores self documents query)) (length documents).
Proof.
  destruct (sorted_result_spec self documents query) as (Hperm & _).
  rewrite Hperm, <- (length_map fst), docs_with_scores_fst_take.
  apply length_take.
Qed.






(** *** Documents are copied, not changed *)

Lemma alloc_spec (h : gmap positive pyobj) (o : pyobj) :
  h !! snd (alloc h o) = None /\ fst (alloc h o) = <[snd (alloc h o) := o]> h.
Proof.
  unfold alloc. simpl. split; [|done].
  apply not_elem_of_dom, is_fresh.
Qed.

Lemma read_document_weaken (h h' : gmap positive pyobj) (l : positive) (d : Document) :
  h ⊆ h' -> read_document h l = Some d -> read_document h' l = Some d.
Proof.
  intros Hsub. unfold read_document.
  destruct (h !! l) as [[entries|content m]|] eqn:Hl; try done.
  destruct (h !! m) as [[entries|content' m']|] eqn:Hm; try done.
  intros Hd. rewrite (lookup_weaken _ _ _ _ Hl Hsub), (lookup_weaken _ _ _ _ Hm Hsub).
  done.
Qed.

Lemma new_document_spec (h : gmap positive pyobj) (d : Document) :
  h ⊆ fst (new_document h d)
  /\ h !! snd (new_document h d) = None
  /\ read_document (fst (new_document h d)) (snd (new_document h d)) = Some d.
Proof.
  unfold new_document.
  destruct (alloc_spec h (ODict (metadata d))) as [Hm Hhm].
  set (hm := alloc h (ODict (metadata d))) in *.
  destruct (alloc_spec (fst hm) (ODocument (page_content d) (snd hm))) as [Hl Hhl].
  set (hl := alloc (fst hm) (ODocument (page_content d) (snd hm))) in *.
  assert (h ⊆ fst hm) as Hsub1 by (rewrite Hhm; by apply insert_subseteq).
  assert (fst hm ⊆ fst hl) as Hsub2 by (rewrite Hhl; by apply insert_subseteq).
  split; [by transitivity (fst hm)|]. split.
  - destruct (h !! snd hl) eqn:Hh; [|done].
    pose proof (lookup_weaken _ _ _ _ Hh Hsub1) as Hw. congruence.
  - unfold read_document. rewrite Hhl at 1. rewrite lookup_insert_eq.
    assert (fst hm !! snd hm = Some (ODict (metadata d))) as Hd
      by (rewrite Hhm; apply lookup_insert_eq).
    rewrite (lookup_weaken _ _ _ _ Hd Hsub2). by destruct d.
Qed.

Lemma new_documents_spec (ds : list Document) (h : gmap positive pyobj) :
  h ⊆ fst (new_documents h ds)
  /\ Forall (fun l => h !! l = None) (snd (new_documents h ds))
  /\ Forall2 (fun l d => read_document (fst (new_documents h ds)) l = Some d)
       (snd (new_documents h ds)) ds.
Proof.
  revert h. induction ds as [|d ds IH]; intros h; simpl.
  - split; [done|]. split; constructor.
  - destruct (new_document_spec h d) as (Hsub & Hnew & Hread).
    set (hl := new_document h d) in *.
    destruct (IH (fst hl)) as (Hsub' & Hnew' & Hread').
    set (hls := new_documents (fst hl) ds) in *.
    split; [by transitivity (fst hl)|]. split.
    + constructor; [done|]. eapply Forall_impl; [exact Hnew'|].
      intros l Hl. destruct (h !! l) eqn:Hh; [|done].
      pose proof (lookup_weaken _ _ _ _ Hh Hsub) as Hw. congruence.
    + constructor; [|done]. by apply (read_document_weaken (fst hl)).
Qed.

Lemma ranked_sources (self : FeedbackAwareCrossEncoderReranker)
    (documents : list Document) (query : string) (p : Document * Q) :
  p ∈ ranked self documents query -> fst p ∈ documents.
Proof.
  intros Hp.
  destruct (slice_to_prefix (top_n self) (sorted_result self documents query))
    as [rest Hrest].
  fold (ranked self documents query) in Hrest.
  assert (p ∈ docs_with_scores self documents query) as Hin.
  { destruct (sorted_result_spec self documents query) as (Hperm & _).
    rewrite <- Hperm, Hrest. apply elem_of_app. by left. }
  destruct (docs_with_scores_fst self documents query) as [rest' ->].
  apply elem_of_app. left. apply list_elem_of_In, in_map. by apply list_elem_of_In.
Qed.

(** C10.  Given references to documents in a heap, [compress_documents]
    returns; every object of the heap it started from is unchanged, the
    inputs among them; every returned reference is to a new object; and the
    document behind it has the page content of the input it was ranked
    from, and that input's metadata except under the keys
    [relevance_score], [cross_encoder_score] and [feedback_score], which it
    holds. *)
Theorem C10_inputs_unchanged_outputs_copies (self : FeedbackAwareCrossEncoderReranker)
    (h : gmap positive pyobj) (documents : list positive) (query : string)
    (docs : list Document) :
  mapM (read_document h) documents = Some docs ->
  exists h' outs,
    compress_documents_ref self h documents query = Some (h', outs)
    /\ (forall l o, h !! l = Some o -> h' !! l = Some o)
    /\ Forall2 (fun l d => read_document h' l = Some d) documents docs
    /\ Forall (fun l => h !! l = None) outs
    /\ Forall2 (fun l src =>
                  fst src ∈ docs
                  /\ exists out,
                       read_document h' l = Some out
                       /\ page_content out = page_content (fst src)
                       /\ (forall k, k ∉ score_keys ->
                             metadata out !! k = metadata (fst src) !! k)
                       /\ (forall k, k ∈ score_keys -> is_Some (metadata out !! k)))
         outs (ranked self docs query).
Proof.
  intros Hread. unfold compress_documents_ref. rewrite Hread. simpl.
  destruct (new_documents_spec (compress_documents self docs query) h)
    as (Hsub & Hnew & Hout).
  set (res := new_documents h (compress_documents self docs query)) in *.
  exists (fst res), (snd res). split; [by destruct res|].
  split; [intros l o Hl; by apply (lookup_weaken h)|]. split.
  { apply mapM_Some in Hread. eapply Forall2_impl; [exact Hread|].
    intros l d Hd. by apply (read_document_weaken h). }
  split; [done|].
  pose proof (compress_documents_annotations self docs query) as Hann.
  assert (Forall (fun p => fst p ∈ docs) (ranked self docs query)) as Hsrc.
  { apply Forall_forall. intros p Hp. by apply (ranked_sources self docs query). }
  revert Hout Hann Hsrc.
  generalize (ranked self docs query) as rk.
  generalize (compress_documents self docs query) as cds.
  generalize (snd res) as ls. clear.
  induction ls as [|l ls IH]; intros cds rk Hout Hann Hsrc.
  - inversion Hout; subst. inversion Hann; subst. constructor.
  - inversion Hout as [|? out ? cds' Hl Hout']; subst.
    inversion Hann as [|? p ? rk' Hp Hann']; subst.
    apply Forall_cons in Hsrc as [Hs Hsrc].
    constructor; [|by apply (IH cds')].
    split; [done|]. exists out. split; [done|].
    destruct Hp as (Hc & Hr & Hx & Hf & Hk).
    split; [done|]. split; [done|].
    intros k Hkey. unfold score_keys in Hkey. unfold metadata_num in *.
    rewrite !elem_of_cons in Hkey.
    destruct Hkey as [->|[->|[->|Hnil]]]; [| | |by apply elem_of_nil in Hnil].
    + destruct (metadata out !! "relevance_score"); [by eexists|done].
    + destruct (metadata out !! "cross_encoder_score"); [by eexists|done].
    + destruct (metadata out !! "feedback_score"); [by eexists|done].
Qed.

Lemma C10_inputs_unchanged_outputs_copies_witness :
  exists h' outs,
    compress_documents_ref Samples.plain_reranker Samples.heap_xy
      [2%positive; 4%positive] "q" = Some (h', outs)
    /\ (forall l o, Samples.heap_xy !! l = Some o -> h' !! l = Some o)
    /\ Forall2 (fun l d => read_document h' l = Some d)
         [2%positive; 4%positive] [Samples.doc_x; Samples.doc_y]
    /\ Forall (fun l => Samples.heap_xy !! l = None) outs
    /\ Forall2 (fun l src =>
                  fst src ∈ [Samples.doc_x; Samples.doc_y]
                  /\ exists out,
                       read_document h' l = Some out
                       /\ page_content out = page_content (fst src)
                       /\ (forall k, k ∉ score_keys ->
                             metadata out !! k = metadata (fst src) !! k)
                       /\ (forall k, k ∈ score_keys -> is_Some (metadata out !! k)))
         outs (ranked Samples.plain_reranker [Samples.doc_x; Samples.doc_y] "q").
Proof.
  apply (C10_inputs_unchanged_outputs_copies Samples.plain_reranker Samples.heap_xy
           [2%positive; 4%positive] "q" [Samples.doc_x; Samples.doc_y]).
  vm_compute. reflexivity.
Defined.

(** ** Part III: further properties of the code *)

(** *** [combiner] *)

Lemma visits_cons (r : FeedbackRow) (feedback : list FeedbackRow) :
  visits (r :: feedback) = visits [r] ++ visits feedback.
Proof. unfold visits. simpl. by rewrite app_nil_r. Qed.

Lemma visits_Permutation (feedback feedback' : list FeedbackRow) :
  feedback ≡ₚ feedback' -> visits feedback ≡ₚ visits feedback'.
Proof. intros Hp. unfold visits. by apply Permutation_flat_map. Qed.

Lemma visits_source (feedback : list FeedbackRow) (d : string) :
  d ∈ map fst (visits feedback) -> exists r, r ∈ feedback /\ d ∈ record_ids r.
Proof.
  unfold visits. rewrite list_elem_of_In, in_map_iff.
  intros ([d' z] & Hd & Hin). simpl in Hd. subst d'.
  apply in_flat_map in Hin as (r & Hr & Hin).
  apply in_map_iff in Hin as (cell & Hcell & Hin).
  exists r. split; [by apply list_elem_of_In|].
  unfold record_ids. rewrite list_elem_of_In, in_map_iff.
  exists cell. split; [congruence|done].
Qed.

(** X1.  [combiner] raises exactly when the feedback frame has no row. *)
Theorem X1_combiner_raises_iff_no_feedback (feedback : list FeedbackRow)
    (documents_lst : list string) :
  (exists e, combiner feedback documents_lst = Raise e) <-> feedback = [].
Proof.
  rewrite combiner_spec. destruct feedback as [|r feedback].
  - split; [done|]. intros _. by eexists.
  - pose proof (visits_nonempty r feedback) as Hne.
    destruct (visits (r :: feedback)); [done|].
    split; [by intros [e He]|done].
Qed.

Lemma visit_sum_abs (vs : list (string * Z)) (d : string) :
  Z.abs (visit_sum vs d) <= visit_abs_sum vs.
Proof.
  induction vs as [|v vs IH]; simpl; [done|].
  destruct (String.eqb (fst v) d); lia.
Qed.

(** X2.  On a feedback frame with a row whose ratings are small enough
    (twice the sum of the magnitudes of the ratings visited is below
    [2^53], so that no [int64] sum wraps and no [float64] rounds),
    [combiner] returns one row per candidate, in the order of the
    candidates (a candidate listed twice gets two rows); the rating of a
    row is the sum of the ratings of all the visits of its id, plus the
    rating of the first visit of the run when that visit is of this id;
    every rating returned is below [2^53] in magnitude. *)
Theorem X2_combiner_rows (r : FeedbackRow) (feedback : list FeedbackRow)
    (documents_lst : list string) :
  2 * visit_abs_sum (visits (r :: feedback)) < 2 ^ 53 ->
  exists (first : string * Z) (others : list (string * Z)) (table : list RatingRow),
    visits (r :: feedback) = first :: others
    /\ combiner (r :: feedback) documents_lst = Ok table
    /\ table = map (fun d =>
                      (d, (if String.eqb (fst first) d then snd first else 0)
                          + visit_sum (first :: others) d))
                 documents_lst
    /\ Forall (fun row => Z.abs (snd row) < 2 ^ 53) table.
Proof.
  intros Hsmall.
  rewrite combiner_spec. pose proof (visits_nonempty r feedback) as Hne.
  destruct (visits (r :: feedback)) as [|v vs]; [done|].
  exists v, vs. eexists. split; [done|]. split; [done|]. split; [done|].
  apply Forall_forall. intros row Hrow.
  rewrite list_elem_of_In, in_map_iff in Hrow. destruct Hrow as (d & <- & _).
  cbn [snd]. pose proof (visit_sum_abs (v :: vs) d) as Hsum.
  assert (Z.abs (if String.eqb (fst v) d then snd v else 0) <= visit_abs_sum (v :: vs))
    as Hfirst.
  { cbn [visit_abs_sum]. pose proof (visit_sum_abs vs d).
    destruct (String.eqb (fst v) d); lia. }
  change (2 ^ 53) with 9007199254740992 in *. unfold accumulated_rating.
  revert Hsmall Hsum Hfirst.
  generalize (visit_abs_sum (v :: vs)) (visit_sum (v :: vs) d)
    (if String.eqb (fst v) d then snd v else 0).
  intros total s b. lia.
Qed.

Lemma X2_combiner_rows_witness :
  exists (first : string * Z) (others : list (string * Z)) (table : list RatingRow),
    visits (Samples.rec_ab :: [Samples.rec_b]) = first :: others
    /\ combiner (Samples.rec_ab :: [Samples.rec_b]) ["a"; "b"; "c"] = Ok table
    /\ table = map (fun d =>
                      (d, (if String.eqb (fst first) d then snd first else 0)
                          + visit_sum (first :: others) d))
                 ["a"; "b"; "c"]
    /\ Forall (fun row => Z.abs (snd row) < 2 ^ 53) table.
Proof.
  apply (X2_combiner_rows Samples.rec_ab [Samples.rec_b] ["a"; "b"; "c"]).
  by vm_compute.
Defined.

(** X3.  The rating table that the loops build has one row per distinct
    trimmed id: no id twice, and exactly the ids that some feedback record
    names. *)
Theorem X3_rating_table_ids (r : FeedbackRow) (feedback : list FeedbackRow) :
  exists df,
    feedback_rating_df (r :: feedback) = Some df
    /\ NoDup (map fst df)
    /\ forall d, d ∈ map fst df
                 <-> exists r', r' ∈ r :: feedback /\ d ∈ record_ids r'.
Proof.
  pose proof (feedback_rating_df_spec (r :: feedback)) as Hs.
  pose proof (visits_nonempty r feedback) as Hne.
  destruct (visits (r :: feedback)) as [|v vs] eqn:Hv; [done|].
  destruct Hs as (df & Hdf & Hnd & Hk & _).
  exists df. split; [done|]. split; [done|].
  intros d. rewrite Hk, <- Hv. split.
  - apply visits_source.
  - intros (r' & Hr' & Hd). by apply (visits_elem _ r').
Qed.

(** X4.  Only the place of the first record matters: permuting the records
    that follow it leaves the result of [combiner] unchanged. *)
Theorem X4_combiner_order_after_first_record (r : FeedbackRow)
    (rest rest' : list FeedbackRow) (documents_lst : list string) :
  rest ≡ₚ rest' ->
  combiner (r :: rest) documents_lst = combiner (r :: rest') documents_lst.
Proof.
  intros Hp. pose proof (visits_nonempty r []) as Hne.
  destruct (visits [r]) as [|v vs] eqn:Hv; [done|].
  apply (combiner_order_after_first _ _ v (vs ++ visits rest) (vs ++ visits rest')).
  - by rewrite visits_cons, Hv.
  - by rewrite visits_cons, Hv.
  - apply Permutation_app_head. by apply visits_Permutation.
Qed.

Lemma X4_combiner_order_after_first_record_witness :
  combiner (Samples.rec_ab :: [Samples.rec_b; Samples.rec_a1]) ["a"; "b"]
  = combiner (Samples.rec_ab :: [Samples.rec_a1; Samples.rec_b]) ["a"; "b"].
Proof.
  apply (X4_combiner_order_after_first_record Samples.rec_ab
           [Samples.rec_b; Samples.rec_a1] [Samples.rec_a1; Samples.rec_b] ["a"; "b"]).
  apply perm_swap.
Defined.

(** *** The parsing of the serialized id list *)

Lemma mem_char_app (c : ascii) (s t : string) :
  PyStr.mem_char c (s ++ t) = PyStr.mem_char c s || PyStr.mem_char c t.
Proof.
  induction s as [|d s IH]; simpl; [done|]. rewrite IH. by rewrite orb_assoc.
Qed.

Lemma plain_id_absent (c : ascii) (s : string) :
  plain_id s = true -> PyStr.mem_char c special_chars = true ->
  PyStr.mem_char c s = false.
Proof.
  intros Hs Hc. induction s as [|d s IH]; [done|].
  cbn [plain_id] in Hs. apply andb_true_iff in Hs as [Hd Hs].
  cbn [PyStr.mem_char]. rewrite (IH Hs), orb_false_r.
  destruct (Ascii.eqb_spec c d) as [->|Hne]; [|done].
  rewrite Hc in Hd. done.
Qed.

Lemma prefix_cons_ne (c d : ascii) (old s : string) :
  c <> d -> String.prefix (String c old) (String d s) = false.
Proof. intros Hne. simpl. by destruct (ascii_dec c d). Qed.

(** A text without the first character of [old] holds no occurrence. *)
Lemma replace_go_app_absent (c : ascii) (old new s t : string) :
  PyStr.mem_char c s = false ->
  PyStr.replace_go (String c old) new 0 (s ++ t)
  = (s ++ PyStr.replace_go (String c old) new 0 t)%string.
Proof.
  induction s as [|d s IH]; intros Habs; [done|].
  cbn [PyStr.mem_char] in Habs. apply orb_false_iff in Habs as [Hd Habs].
  apply Ascii.eqb_neq in Hd.
  change (String d s ++ t)%string with (String d (s ++ t)).
  cbn [PyStr.replace_go]. rewrite prefix_cons_ne by done.
  by rewrite IH.
Qed.

Lemma append_nil_r (s : string) : (s ++ EmptyString)%string = s.
Proof.
  induction s as [|c s IH]; [done|].
  change (String c (s ++ EmptyString) = String c s). by f_equal.
Qed.

Lemma replace_absent (c : ascii) (old new s : string) :
  PyStr.mem_char c s = false -> PyStr.replace (String c old) new s = s.
Proof.
  intros Habs. unfold PyStr.replace.
  rewrite <- (append_nil_r s) at 1.
  rewrite replace_go_app_absent by done. simpl. apply append_nil_r.
Qed.

Lemma split_absent (sep : ascii) (s : string) :
  PyStr.mem_char sep s = false -> PyStr.split sep s = [s].
Proof.
  induction s as [|c s IH]; intros Habs; [done|].
  cbn [PyStr.mem_char] in Habs. apply orb_false_iff in Habs as [Hc Habs].
  cbn [PyStr.split]. rewrite Ascii.eqb_sym, Hc. by rewrite IH.
Qed.

Lemma split_app_sep (sep : ascii) (s t : string) :
  PyStr.mem_char sep s = false ->
  PyStr.split sep (s ++ String sep t) = s :: PyStr.split sep t.
Proof.
  induction s as [|c s IH]; intros Habs.
  - simpl. by rewrite Ascii.eqb_refl.
  - cbn [PyStr.mem_char] in Habs. apply orb_false_iff in Habs as [Hc Habs].
    change (String c s ++ String sep t)%string with (String c (s ++ String sep t)).
    cbn [PyStr.split]. rewrite Ascii.eqb_sym, Hc. by rewrite IH.
Qed.

Lemma split_join_comma (cell : string) (cells : list string) :
  Forall (fun c => PyStr.mem_char ","%char c = false) (cell :: cells) ->
  PyStr.split ","%char (Samples.join "," (cell :: cells)) = cell :: cells.
Proof.
  revert cell. induction cells as [|c' cells IH]; intros cell Hall.
  - apply Forall_cons in Hall as [Hc _]. by apply split_absent.
  - apply Forall_cons in Hall as [Hc Hall].
    change (Samples.join "," (cell :: c' :: cells))
      with (cell ++ String ","%char (Samples.join "," (c' :: cells)))%string.
    rewrite split_app_sep by done. by rewrite IH.
Qed.

Lemma lstrip_absent (chars s : string) (c : ascii) :
  PyStr.mem_char c chars = false -> PyStr.lstrip chars (String c s) = String c s.
Proof. intros Hc. simpl. by rewrite Hc. Qed.

Lemma rstrip_app_member (chars s : string) (q : ascii) :
  PyStr.mem_char q chars = true ->
  PyStr.rstrip chars (s ++ String q EmptyString) = PyStr.rstrip chars s.
Proof.
  intros Hq. induction s as [|c s IH]; simpl.
  - by rewrite Hq.
  - by rewrite IH.
Qed.

Lemma rstrip_absent (q : ascii) (s : string) :
  PyStr.mem_char q s = false ->
  PyStr.rstrip (String q EmptyString) s = s.
Proof.
  induction s as [|c s IH]; intros Habs; [done|].
  cbn [PyStr.mem_char] in Habs. apply orb_false_iff in Habs as [Hc Habs].
  cbn [PyStr.rstrip]. rewrite (IH Habs).
  destruct s as [|d s]; [|done].
  simpl. by rewrite Ascii.eqb_sym, Hc.
Qed.

Lemma strip_quoted (id : string) :
  PyStr.mem_char PyStr.dquote id = false ->
  strip_quotes (Samples.quoted id) = id.
Proof.
  intros Habs. unfold strip_quotes, PyStr.strip, Samples.quoted.
  assert (PyStr.mem_char PyStr.dquote (String PyStr.dquote EmptyString) = true)
    as Hq by done.
  cbn [PyStr.lstrip]. rewrite Hq.
  destruct id as [|c id].
  - done.
  - cbn [PyStr.mem_char] in Habs. apply orb_false_iff in Habs as [Hc Habs'].
    change (String c id ++ String PyStr.dquote EmptyString)%string
      with (String c (id ++ String PyStr.dquote EmptyString)).
    rewrite lstrip_absent.
    + change (String c (id ++ String PyStr.dquote EmptyString))
        with (String c id ++ String PyStr.dquote EmptyString)%string.
      rewrite rstrip_app_member by done. apply rstrip_absent.
      cbn [PyStr.mem_char]. by rewrite Hc, Habs'.
    + cbn [PyStr.mem_char]. by rewrite Ascii.eqb_sym, Hc.
Qed.

Lemma quoted_absent (c : ascii) (id : string) :
  c <> PyStr.dquote -> PyStr.mem_char c id = false ->
  PyStr.mem_char c (Samples.quoted id) = false.
Proof.
  intros Hne Habs. unfold Samples.quoted. cbn [PyStr.mem_char].
  rewrite mem_char_app, Habs. simpl.
  apply Ascii.eqb_neq in Hne. by rewrite Hne.
Qed.

Lemma join_absent (c : ascii) (sep : string) (cells : list string) :
  PyStr.mem_char c sep = false ->
  Forall (fun cell => PyStr.mem_char c cell = false) cells ->
  PyStr.mem_char c (Samples.join sep cells) = false.
Proof.
  intros Hsep Hall. induction Hall as [|cell cells Hc Hall IH]; [done|].
  destruct cells as [|c' cells]; [done|].
  change (Samples.join sep (cell :: c' :: cells))
    with (cell ++ sep ++ Samples.join sep (c' :: cells))%string.
  by rewrite !mem_char_app, Hc, Hsep, IH.
Qed.

Lemma quoted_cells_absent (c : ascii) (ids : list string) :
  c <> PyStr.dquote -> PyStr.mem_char c special_chars = true ->
  Forall (fun id => plain_id id = true) ids ->
  Forall (fun cell => PyStr.mem_char c cell = false) (map Samples.quoted ids).
Proof.
  intros Hne Hc Hall. apply Forall_forall. intros cell Hcell.
  rewrite list_elem_of_In, in_map_iff in Hcell. destruct Hcell as (id & <- & Hid).
  apply quoted_absent; [done|]. apply plain_id_absent; [|done].
  rewrite Forall_forall in Hall. by apply Hall, list_elem_of_In.
Qed.

Lemma replace_go_head (c : ascii) (t : string) :
  PyStr.replace_go (String c EmptyString) EmptyString 0 (String c t)
  = PyStr.replace_go (String c EmptyString) EmptyString 0 t.
Proof.
  cbn [PyStr.replace_go].
  assert (String.prefix (String c EmptyString) (String c t) = true) as ->.
  { cbn [String.prefix]. destruct (ascii_dec c c); [|done]. by destruct t. }
  done.
Qed.

(** The two bracket replacements of line 58 on a bracketed text. *)
Lemma replace_brackets (body : string) :
  PyStr.mem_char "["%char body = false -> PyStr.mem_char "]"%char body = false ->
  PyStr.replace "]" EmptyString (PyStr.replace "[" EmptyString ("[" ++ body ++ "]"))
  = body.
Proof.
  intros Hl Hr.
  assert (PyStr.replace "[" EmptyString ("[" ++ body ++ "]") = (body ++ "]")%string)
    as ->.
  { change ("[" ++ body ++ "]")%string with (String "["%char (body ++ "]")).
    unfold PyStr.replace. rewrite replace_go_head.
    apply (replace_absent "["%char EmptyString). by rewrite mem_char_app, Hl. }
  unfold PyStr.replace. rewrite replace_go_app_absent by done.
  rewrite replace_go_head. apply append_nil_r.
Qed.

(** X5.  The parsing of lines 58 and 64 recovers the ids of a non-empty
    list serialized as compact JSON text (quoted ids, joined by commas, in
    brackets), when no id holds a bracket, a comma, a blank or a double
    quote. *)
Theorem X5_compact_id_list_round_trip (r : FeedbackRow) (ids : list string) :
  fb_document_id r = Samples.ids_field "," ids ->
  ids <> [] ->
  Forall (fun id => plain_id id = true) ids ->
  record_ids r = ids.
Proof.
  intros Hfield Hne Hplain. unfold record_ids, split_document_ids.
  rewrite Hfield. unfold Samples.ids_field.
  rewrite replace_brackets.
  - unfold PyStr.sp_dquote_sp. rewrite replace_absent.
    + destruct ids as [|id ids]; [done|].
      change (map Samples.quoted (id :: ids))
        with (Samples.quoted id :: map Samples.quoted ids).
      rewrite split_join_comma.
      * change (Samples.quoted id :: map Samples.quoted ids)
          with (map Samples.quoted (id :: ids)).
        rewrite map_map. rewrite <- (map_id (id :: ids)) at 2.
        apply map_ext_in. intros x Hx. apply strip_quoted.
        apply plain_id_absent; [|done].
        rewrite Forall_forall in Hplain. by apply Hplain, list_elem_of_In.
      * by apply (quoted_cells_absent ","%char (id :: ids)).
    + apply join_absent; [done|]. by apply quoted_cells_absent.
  - apply join_absent; [done|]. by apply quoted_cells_absent.
  - apply join_absent; [done|]. by apply quoted_cells_absent.
Qed.

Lemma X5_compact_id_list_round_trip_witness :
  record_ids Samples.rec_ab = ["a"; "b"].
Proof.
  apply (X5_compact_id_list_round_trip Samples.rec_ab ["a"; "b"]).
  - reflexivity.
  - discriminate.
  - repeat constructor.
Defined.

Lemma append_cons (c : ascii) (s t : string) :
  (String c s ++ t)%string = String c (s ++ t).
Proof. done. Qed.

Lemma append_assoc (s t u : string) : ((s ++ t) ++ u)%string = (s ++ (t ++ u))%string.
Proof.
  induction s as [|c s IH]; [done|]. rewrite !append_cons. by f_equal.
Qed.

Lemma join_cons_prefix (sep p c : string) (rest : list string) :
  Samples.join sep ((p ++ c)%string :: rest) = (p ++ Samples.join sep (c :: rest))%string.
Proof.
  destruct rest as [|c' rest]; [done|].
  change (Samples.join sep ((p ++ c)%string :: c' :: rest))
    with ((p ++ c) ++ sep ++ Samples.join sep (c' :: rest))%string.
  change (Samples.join sep (c :: c' :: rest))
    with (c ++ sep ++ Samples.join sep (c' :: rest))%string.
  apply append_assoc.
Qed.

(** A list joined by comma and blank is the list joined by comma of the
    cells, each but the first with a blank before it. *)
Lemma join_blank_as_comma (cell : string) (cells : list string) :
  Samples.join ", " (cell :: cells)
  = Samples.join "," (cell :: map (fun c => String " "%char c) cells).
Proof.
  revert cell. induction cells as [|c' cells IH]; intros cell; [done|].
  change (Samples.join ", " (cell :: c' :: cells))
    with (cell ++ String ","%char (String " "%char (Samples.join ", " (c' :: cells))))%string.
  rewrite IH.
  change (map (fun c => String " "%char c) (c' :: cells))
    with (String " "%char c' :: map (fun c => String " "%char c) cells).
  change (Samples.join "," (cell :: String " "%char c' :: map (fun c => String " "%char c) cells))
    with (cell ++ String ","%char
            (Samples.join "," ((" " ++ c')%string :: map (fun c => String " "%char c) cells)))%string.
  by rewrite join_cons_prefix.
Qed.

Lemma plain_id_head (c : ascii) (s : string) :
  plain_id (String c s) = true -> c <> " "%char /\ c <> PyStr.dquote.
Proof.
  intros Hp. cbn [plain_id] in Hp. apply andb_true_iff in Hp as [Hc _].
  split; intros ->; done.
Qed.

(** After its opening quote, a joined list of quoted plain ids goes on with
    a character that is no blank. *)
Lemma join_quoted_head (id : string) (ids : list string) :
  plain_id id = true ->
  exists k K,
    Samples.join ", " (map Samples.quoted (id :: ids))
    = String PyStr.dquote (String k K) /\ k <> " "%char.
Proof.
  intros Hp.
  assert (exists k K, Samples.quoted id = String PyStr.dquote (String k K)
                      /\ k <> " "%char) as (k & K & Hq & Hk).
  { unfold Samples.quoted. destruct id as [|c id].
    - by exists PyStr.dquote, EmptyString.
    - exists c, (id ++ String PyStr.dquote EmptyString)%string.
      split; [done|]. by apply (plain_id_head c id). }
  destruct ids as [|id' ids].
  - exists k, K. by split.
  - change (Samples.join ", " (map Samples.quoted (id :: id' :: ids)))
      with (Samples.quoted id ++ ", " ++ Samples.join ", " (map Samples.quoted (id' :: ids)))%string.
    rewrite Hq, !append_cons. by eexists _, _.
Qed.

Lemma replace_go_cons_other (old new : string) (c : ascii) (s : string) :
  String.prefix old (String c s) = false ->
  PyStr.replace_go old new 0 (String c s) = String c (PyStr.replace_go old new 0 s).
Proof. intros Hp. cbn [PyStr.replace_go]. by rewrite Hp. Qed.

Lemma replace_pattern_blank_list (ids : list string) :
  Forall (fun id => plain_id id = true) ids ->
  PyStr.replace PyStr.sp_dquote_sp EmptyString
    (Samples.join ", " (map Samples.quoted ids))
  = Samples.join ", " (map Samples.quoted ids).
Proof.
  unfold PyStr.replace, PyStr.sp_dquote_sp.
  induction ids as [|id ids IH]; intros Hall; [done|].
  apply Forall_cons in Hall as [Hid Hall].
  assert (PyStr.mem_char " "%char (Samples.quoted id) = false) as Hblank.
  { apply quoted_absent; [done|]. by apply plain_id_absent. }
  destruct ids as [|id' ids].
  - by apply (replace_absent " "%char).
  - change (Samples.join ", " (map Samples.quoted (id :: id' :: ids)))
      with (Samples.quoted id ++ String ","%char
              (String " "%char (Samples.join ", " (map Samples.quoted (id' :: ids)))))%string.
    apply Forall_cons in Hall as Hall'. destruct Hall' as [Hid' _].
    destruct (join_quoted_head id' ids Hid') as (k & K & HJ & Hk).
    specialize (IH Hall). rewrite HJ in *.
    change (Samples.quoted id ++ String ","%char (String " "%char (String PyStr.dquote (String k K))))%string
      with (Samples.quoted id ++ ("," ++ String " "%char (String PyStr.dquote (String k K))))%string.
    rewrite <- append_assoc.
    rewrite replace_go_app_absent by (by rewrite mem_char_app, Hblank).
    f_equal. rewrite replace_go_cons_other; [by rewrite IH|].
    cbn [String.prefix]. destruct (ascii_dec " " " "); [|done].
    destruct (ascii_dec PyStr.dquote PyStr.dquote); [|done].
    by destruct (ascii_dec " " k).
Qed.

Lemma rstrip_cons_fixed (chars s : string) (c : ascii) :
  PyStr.rstrip chars s = s -> s <> EmptyString ->
  PyStr.rstrip chars (String c s) = String c s.
Proof.
  intros Hs Hne. cbn [PyStr.rstrip]. rewrite Hs. by destruct s.
Qed.

Lemma strip_blank_quoted (id : string) :
  PyStr.mem_char PyStr.dquote id = false -> id <> EmptyString ->
  strip_quotes (String " "%char (Samples.quoted id))
  = String " "%char (String PyStr.dquote id).
Proof.
  intros Habs Hne. unfold strip_quotes, PyStr.strip, Samples.quoted.
  rewrite lstrip_absent by done.
  change (String " "%char (String PyStr.dquote (id ++ String PyStr.dquote EmptyString)))
    with (String " "%char (String PyStr.dquote id) ++ String PyStr.dquote EmptyString)%string.
  rewrite rstrip_app_member by done.
  apply rstrip_cons_fixed; [|done].
  apply rstrip_cons_fixed; [|done].
  by apply rstrip_absent.
Qed.

(** X6.  When the id list is serialized with a blank after each comma (as
    [json.dumps] writes it), the parsing of lines 58 and 64 recovers the
    first id only: every later id comes out with a blank and a double quote
    before it, so that it is another id than the candidate's. *)
Theorem X6_blank_separated_id_list (r : FeedbackRow) (id0 : string) (ids : list string) :
  fb_document_id r = Samples.ids_field ", " (id0 :: ids) ->
  Forall (fun id => plain_id id = true) (id0 :: ids) ->
  Forall (fun id => id <> EmptyString) ids ->
  record_ids r = id0 :: map (fun id => String " "%char (String PyStr.dquote id)) ids.
Proof.
  intros Hfield Hplain Hne. unfold record_ids, split_document_ids.
  rewrite Hfield. unfold Samples.ids_field.
  assert (PyStr.mem_char "["%char (Samples.join ", " (map Samples.quoted (id0 :: ids))) = false)
    as Hl by (apply join_absent; [done|]; by apply quoted_cells_absent).
  assert (PyStr.mem_char "]"%char (Samples.join ", " (map Samples.quoted (id0 :: ids))) = false)
    as Hr by (apply join_absent; [done|]; by apply quoted_cells_absent).
  rewrite replace_brackets by done.
  rewrite replace_pattern_blank_list by done.
  change (map Samples.quoted (id0 :: ids)) with (Samples.quoted id0 :: map Samples.quoted ids).
  rewrite join_blank_as_comma, split_join_comma.
  - cbn [map]. apply Forall_cons in Hplain as [Hid0 Hplain]. f_equal.
    + apply strip_quoted. by apply plain_id_absent.
    + rewrite !map_map. apply map_ext_in. intros id Hid.
      rewrite Forall_forall in Hplain, Hne.
      apply list_elem_of_In in Hid.
      apply strip_blank_quoted; [|by apply Hne].
      apply plain_id_absent; [by apply Hplain|done].
  - constructor.
    + apply (Forall_inv (quoted_cells_absent ","%char (id0 :: ids) ltac:(done) ltac:(done) Hplain)).
    + apply Forall_forall. intros cell Hcell.
      rewrite map_map in Hcell. rewrite list_elem_of_In, in_map_iff in Hcell.
      destruct Hcell as (id & <- & Hid).
      cbn [PyStr.mem_char]. rewrite orb_false_l.
      apply quoted_absent; [done|]. apply plain_id_absent; [|done].
      apply Forall_cons in Hplain as [_ Hplain].
      rewrite Forall_forall in Hplain. by apply Hplain, list_elem_of_In.
Qed.

Lemma X6_blank_separated_id_list_witness :
  record_ids Samples.rec_ab_blank = "a" :: map (fun id => String " "%char (String PyStr.dquote id)) ["b"].
Proof.
  apply (X6_blank_separated_id_list Samples.rec_ab_blank "a" ["b"]).
  - reflexivity.
  - repeat constructor.
  - repeat constructor. discriminate.
Defined.

(** *** [main_reranker] and [rerank_documents_with_feedback]: errors and rows *)

Lemma combiner_cons (r : FeedbackRow) (feedback : list FeedbackRow)
    (documents_lst : list string) :
  combiner (r :: feedback) documents_lst
  = Ok (map (fun d => (d, accumulated_rating (visits (r :: feedback)) d)) documents_lst).
Proof.
  rewrite combiner_spec. pose proof (visits_nonempty r feedback) as Hne.
  by destruct (visits (r :: feedback)).
Qed.

Lemma left_rows_on_document_keys (combined_df : list RatingRow) (l : Bm25Row)
    (m : MergedRow) :
  document l ∈ map fst combined_df ->
  In m (left_rows_on_document combined_df l) ->
  exists z : Z,
    (document l, z) ∈ combined_df
    /\ m = mkMergedRow (document l) (bm25_score l) (Some (document l)) (Some z).
Proof.
  intros Hdoc Hm. unfold left_rows_on_document in Hm.
  destruct (filter _ _) as [|r0 rs] eqn:Hf.
  - exfalso. rewrite list_elem_of_In, in_map_iff in Hdoc.
    destruct Hdoc as (r' & Hkey & Hr').
    assert (r' ∈ filter (fun r1 : RatingRow => String.eqb (document l) (fst r1)) combined_df)
      as Hin.
    { apply list_elem_of_filter. split; [|by apply list_elem_of_In].
      rewrite Hkey. apply Is_true_true, String.eqb_refl. }
    rewrite Hf in Hin. by apply elem_of_nil in Hin.
  - apply in_map_iff in Hm as ([d z] & <- & Hr').
    assert ((d, z) ∈ filter (fun r1 : RatingRow => String.eqb (document l) (fst r1))
                       combined_df) as Hin
      by (rewrite Hf; by apply list_elem_of_In).
    apply list_elem_of_filter in Hin as [Hkey Hin].
    apply Is_true_true, String.eqb_eq in Hkey. simpl in *. subst d.
    by exists z.
Qed.

(** The rows of the frame of [retrieve_with_bm25] are rows of candidates. *)
Lemma frame_documents
    (BM25Okapi_get_scores : list (list string) -> list string -> pyresult (list Q))
    (query : string) (documents : list string) (frame : list Bm25Row) :
  retrieve_with_bm25 BM25Okapi_get_scores query documents = Ok (Frame frame) ->
  exists scores,
    BM25Okapi_get_scores (map PyStr.split_ws documents) (PyStr.split_ws query) = Ok scores
    /\ frame = map (fun ds => mkBm25Row (fst ds) (snd ds)) (combine documents scores).
Proof.
  unfold retrieve_with_bm25.
  destruct (BM25Okapi_get_scores _ _) as [scores|e]; simpl; [|done].
  intros Hframe. exists scores. split; [done|].
  unfold DataFrame_of_records in Hframe.
  destruct (map _ (combine documents scores)) as [|x xs]; [done|].
  by injection Hframe as <-.
Qed.

(** X7.  [main_reranker] raises in three cases only: the feedback frame is
    empty ([UnboundLocalError]); the BM25 scorer raises (its exception,
    unchanged); or the scorer returns and no (document, score) pair is
    formed, for want of a candidate or of a score ([KeyError] on
    [document]). *)
Theorem X7_main_reranker_errors
    (BM25Okapi_get_scores : list (list string) -> list string -> pyresult (list Q))
    (sort_values_desc : list RankedRow -> list RankedRow)
    (feedback : list FeedbackRow) (documents_lst : list string) (query : string)
    (e : exn) :
  main_reranker BM25Okapi_get_scores sort_values_desc feedback documents_lst query
  = Raise e
  <-> (feedback = [] /\ e = UnboundLocalError "feedback_rating_df")
      \/ (feedback <> []
          /\ BM25Okapi_get_scores (map PyStr.split_ws documents_lst)
               (PyStr.split_ws query) = Raise e)
      \/ (feedback <> [] /\ e = KeyError "document"
          /\ exists scores,
               BM25Okapi_get_scores (map PyStr.split_ws documents_lst)
                 (PyStr.split_ws query) = Ok scores
               /\ combine documents_lst scores = []).
Proof.
  unfold main_reranker. destruct feedback as [|r feedback].
  - simpl. split.
    + intros [= <-]. by left.
    + intros [[_ ->]|[[Hne _]|[Hne _]]]; done.
  - rewrite combiner_cons. simpl.
    unfold rerank_documents_with_feedback, retrieve_with_bm25.
    destruct (BM25Okapi_get_scores _ _) as [scores|e0]; simpl.
    + destruct (combine documents_lst scores) as [|p ps] eqn:Hc; simpl.
      * split.
        -- intros [= <-]. right. right. split; [done|]. split; [done|]. by exists scores.
        -- intros [[Hnil _]|[[_ Hr]|(_ & -> & _)]]; done.
      * split; [done|].
        intros [[Hnil _]|[[_ Hr]|(_ & _ & scores' & [= <-] & Hnil)]]; try done.
        by rewrite Hc in Hnil.
    + split.
      * intros [= <-]. right. left. by split.
      * intros [[Hnil _]|[[_ [= ->]]|(_ & _ & scores' & Hs & _)]]; done.
Qed.

(** X8.  [rerank_documents_with_feedback] on a rating table that has a
    row for every candidate, as the one that [combiner] returns: every row
    of the result is the row of a candidate; its [document_id] is its
    [document], its rating is a rating that the table holds for this
    document (never [NaN]), and its relevance score is 0.7 times its BM25
    score plus 0.3 times that rating. *)
Theorem X8_rerank_rows
    (BM25Okapi_get_scores : list (list string) -> list string -> pyresult (list Q))
    (sort_values_desc : list RankedRow -> list RankedRow)
    (query : string) (documents : list string) (feedback : list FeedbackRow)
    (combined_df : list RatingRow) (rows : list RankedRow) :
  sort_values_contract sort_values_desc ->
  map fst combined_df = documents ->
  rerank_documents_with_feedback BM25Okapi_get_scores sort_values_desc
    query documents feedback combined_df = Ok rows ->
  Forall (fun row =>
            m_document (merged row) ∈ documents
            /\ m_document_id (merged row) = Some (m_document (merged row))
            /\ exists z : Z,
                 m_rating (merged row) = Some z
                 /\ (m_document (merged row), z) ∈ combined_df
                 /\ relevance_score row
                    = Some ((7 # 10) * m_bm25_score (merged row)
                            + (3 # 10) * inject_Z z)%Q)
         rows.
Proof.
  intros Hsort Hkeys Hrows. apply Forall_forall. intros row Hrow.
  unfold rerank_documents_with_feedback in Hrows.
  destruct (retrieve_with_bm25 BM25Okapi_get_scores query documents)
    as [[|frame]|e] eqn:Hbm; simpl in Hrows; try done.
  injection Hrows as <-.
  destruct (frame_documents _ _ _ _ Hbm) as (scores & _ & Hframe).
  destruct (Hsort (scored_frame frame combined_df)) as [Hperm _].
  rewrite Hperm in Hrow. unfold scored_frame in Hrow.
  rewrite list_elem_of_In, in_map_iff in Hrow. destruct Hrow as (m & <- & Hm).
  unfold merge_left_on_document in Hm. apply in_flat_map in Hm as (l & Hl & Hm).
  assert (document l ∈ documents) as Hdoc.
  { rewrite Hframe in Hl. apply in_map_iff in Hl as ([d sc] & <- & Hin). simpl.
    apply list_elem_of_In. by apply in_combine_l in Hin. }
  assert (document l ∈ map fst combined_df) as Hkey by (by rewrite Hkeys).
  destruct (left_rows_on_document_keys _ _ _ Hkey Hm) as (z & Hz & ->).
  simpl. split; [done|]. split; [done|]. by exists z.
Qed.

Lemma X8_rerank_rows_witness :
  Forall (fun row =>
            m_document (merged row) ∈ ["a"; "b"]
            /\ m_document_id (merged row) = Some (m_document (merged row))
            /\ exists z : Z,
                 m_rating (merged row) = Some z
                 /\ (m_document (merged row), z) ∈ [("a", 4); ("b", 3)]
                 /\ relevance_score row
                    = Some ((7 # 10) * m_bm25_score (merged row)
                            + (3 # 10) * inject_Z z)%Q)
         (Samples.sort_desc
            (scored_frame [mkBm25Row "a" 0; mkBm25Row "b" 0] [("a", 4); ("b", 3)])).
Proof.
  apply (X8_rerank_rows Samples.bm25_zero Samples.sort_desc "q" ["a"; "b"]
           [Samples.rec_ab; Samples.rec_b] [("a", 4); ("b", 3)]).
  - apply sort_desc_contract.
  - reflexivity.
  - reflexivity.
Defined.

Lemma combine_documents (documents : list string) (scores : list Q) :
  length scores = length documents ->
  map document (map (fun ds => mkBm25Row (fst ds) (snd ds)) (combine documents scores))
  = documents.
Proof.
  revert scores. induction documents as [|d ds IH]; intros [|sc scores] Hlen;
    simpl in *; try done.
  f_equal. apply IH. lia.
Qed.

Lemma filter_table_count (combined_df : list RatingRow) (x : string) :
  length (filter (fun r1 : RatingRow => String.eqb x (fst r1)) combined_df)
  = count_occ string_dec (map fst combined_df) x.
Proof.
  induction combined_df as [|[d z] df IH]; [done|].
  cbn [map count_occ fst].
  destruct (string_dec d x) as [->|Hne].
  - rewrite filter_cons_True by (simpl; apply Is_true_true, String.eqb_refl).
    simpl. by rewrite IH.
  - rewrite filter_cons_False; [done|].
    simpl. intros Heq. apply Is_true_true, String.eqb_eq in Heq. congruence.
Qed.

Lemma left_rows_documents (combined_df : list RatingRow) (l : Bm25Row) :
  document l ∈ map fst combined_df ->
  map m_document (left_rows_on_document combined_df l)
  = repeat (document l) (count_occ string_dec (map fst combined_df) (document l)).
Proof.
  intros Hdoc.
  assert (length (left_rows_on_document combined_df l)
          = count_occ string_dec (map fst combined_df) (document l)) as Hlen.
  { unfold left_rows_on_document. rewrite <- filter_table_count.
    destruct (filter _ _) as [|r0 rs] eqn:Hf; [|by rewrite length_map].
    exfalso. apply list_elem_of_In, (count_occ_In string_dec) in Hdoc.
    rewrite <- filter_table_count, Hf in Hdoc. simpl in Hdoc. lia. }
  rewrite <- Hlen.
  assert (forall ms : list MergedRow,
            (forall m, In m ms -> m_document m = document l) ->
            map m_document ms = repeat (document l) (length ms)) as Hrep.
  { induction ms as [|m ms IH]; intros Hall; [done|].
    simpl. f_equal; [apply Hall; by left|].
    apply IH. intros m' Hm'. apply Hall. by right. }
  apply Hrep. intros m Hm.
  by destruct (left_rows_on_document_keys combined_df l m Hdoc Hm) as (z & _ & ->).
Qed.

Lemma merge_document_column (combined_df : list RatingRow) (frame : list Bm25Row) :
  Forall (fun l => document l ∈ map fst combined_df) frame ->
  map m_document (merge_left_on_document frame combined_df)
  = flat_map (fun d => repeat d (count_occ string_dec (map fst combined_df) d))
      (map document frame).
Proof.
  unfold merge_left_on_document.
  induction 1 as [|l frame Hl Hin IH]; [done|].
  cbn [flat_map map]. rewrite map_app.
  by rewrite (left_rows_documents _ _ Hl), IH.
Qed.

(** X9.  [rerank_documents_with_feedback] on a rating table that has one
    row per candidate, in their order, as the one that [combiner] returns,
    and with one BM25 score per candidate: the [document] column of the
    result holds every candidate as many times as the square of its number
    of occurrences in the candidate list, since the merge of line 150 joins
    every occurrence with every row of the table of the same name.  With
    distinct candidates it is a permutation of the candidates. *)
Theorem X9_rerank_document_column
    (BM25Okapi_get_scores : list (list string) -> list string -> pyresult (list Q))
    (sort_values_desc : list RankedRow -> list RankedRow)
    (query : string) (documents : list string) (feedback : list FeedbackRow)
    (combined_df : list RatingRow) (scores : list Q) (rows : list RankedRow) :
  sort_values_contract sort_values_desc ->
  map fst combined_df = documents ->
  BM25Okapi_get_scores (map PyStr.split_ws documents) (PyStr.split_ws query)
  = Ok scores ->
  length scores = length documents ->
  rerank_documents_with_feedback BM25Okapi_get_scores sort_values_desc
    query documents feedback combined_df = Ok rows ->
  map (fun row => m_document (merged row)) rows
  ≡ₚ flat_map (fun d => repeat d (count_occ string_dec documents d)) documents
  /\ (NoDup documents ->
      map (fun row => m_document (merged row)) rows ≡ₚ documents).
Proof.
  intros Hsort Hkeys Hscores Hlen Hrows.
  assert (map (fun row => m_document (merged row)) rows
          ≡ₚ flat_map (fun d => repeat d (count_occ string_dec documents d))
               documents) as Hcol.
  { unfold rerank_documents_with_feedback in Hrows.
    destruct (retrieve_with_bm25 BM25Okapi_get_scores query documents)
      as [[|frame]|e] eqn:Hbm; simpl in Hrows; try done.
    injection Hrows as <-.
    destruct (frame_documents _ _ _ _ Hbm) as (scores' & Hscores' & Hframe).
    rewrite Hscores in Hscores'. injection Hscores' as <-.
    destruct (Hsort (scored_frame frame combined_df)) as [Hperm _].
    rewrite Hperm. unfold scored_frame. rewrite map_map. simpl.
    assert (map document frame = documents) as Hdocs.
    { rewrite Hframe. by apply combine_documents. }
    rewrite merge_document_column.
    - by rewrite Hdocs, Hkeys.
    - apply Forall_forall. intros l Hl. rewrite Hkeys, <- Hdocs.
      apply list_elem_of_In, in_map. by apply list_elem_of_In. }
  split; [done|].
  intros Hnd. rewrite Hcol.
  assert (Forall (fun d => count_occ string_dec documents d = 1%nat) documents)
    as Hone.
  { apply Forall_forall. intros d Hd.
    apply NoDup_count_occ'; [by apply NoDup_ListNoDup|by apply list_elem_of_In]. }
  revert Hone. generalize (count_occ string_dec documents) as cnt. intros cnt Hone.
  clear -Hone. induction Hone as [|d ds Hd Hone IH]; [done|].
  cbn [flat_map]. rewrite Hd. simpl. by rewrite IH.
Qed.

Lemma X9_rerank_document_column_witness :
  map (fun row => m_document (merged row))
    (Samples.sort_desc
       (scored_frame [mkBm25Row "a" 0; mkBm25Row "a" 0] [("a", 4); ("a", 4)]))
  ≡ₚ flat_map (fun d => repeat d (count_occ string_dec ["a"; "a"] d)) ["a"; "a"]
  /\ (NoDup ["a"; "a"] ->
      map (fun row => m_document (merged row))
        (Samples.sort_desc
           (scored_frame [mkBm25Row "a" 0; mkBm25Row "a" 0] [("a", 4); ("a", 4)]))
      ≡ₚ ["a"; "a"]).
Proof.
  apply (X9_rerank_document_column Samples.bm25_zero Samples.sort_desc "q" ["a"; "a"]
           [Samples.rec_ab] [("a", 4); ("a", 4)] [0%Q; 0%Q]).
  - apply sort_desc_contract.
  - reflexivity.
  - reflexivity.
  - reflexivity.
  - reflexivity.
Defined.

(** *** [get_documents_reranker] *)

Lemma length_append (s t : string) :
  String.length (s ++ t) = (String.length s + String.length t)%nat.
Proof.
  induction s as [|c s IH]; [done|]. rewrite append_cons. simpl. by rewrite IH.
Qed.

Lemma rfind_absent (c : ascii) (s : string) :
  PyStr.mem_char c s = false -> OsPath.rfind c s = None.
Proof.
  induction s as [|d s IH]; intros Habs; [done|].
  cbn [PyStr.mem_char] in Habs. apply orb_false_iff in Habs as [Hd Habs].
  cbn [OsPath.rfind]. rewrite (IH Habs). by rewrite Ascii.eqb_sym, Hd.
Qed.

Lemma rfind_app_last (c : ascii) (s t : string) :
  PyStr.mem_char c t = false ->
  OsPath.rfind c (s ++ String c t) = Some (String.length s).
Proof.
  intros Habs. induction s as [|d s IH].
  - change (EmptyString ++ String c t)%string with (String c t).
    cbn [OsPath.rfind]. rewrite rfind_absent by done. by rewrite Ascii.eqb_refl.
  - rewrite append_cons. cbn [OsPath.rfind]. by rewrite IH.
Qed.

Lemma rfind_app_absent (c : ascii) (s t : string) :
  PyStr.mem_char c t = false -> OsPath.rfind c (s ++ t) = OsPath.rfind c s.
Proof.
  intros Habs. induction s as [|d s IH].
  - change (EmptyString ++ t)%string with t. by rewrite rfind_absent.
  - rewrite append_cons. cbn [OsPath.rfind]. by rewrite IH.
Qed.

Lemma rfind_lt (c : ascii) (s : string) (i : nat) :
  OsPath.rfind c s = Some i -> (i < String.length s)%nat.
Proof.
  revert i. induction s as [|d s IH]; intros i Hi; [done|].
  cbn [OsPath.rfind] in Hi. simpl. destruct (OsPath.rfind c s) as [j|].
  - injection Hi as <-. specialize (IH j eq_refl). lia.
  - destruct (Ascii.eqb d c); [|done]. injection Hi as <-. lia.
Qed.

Lemma substring_0_app (s t : string) :
  substring 0 (String.length s) (s ++ t) = s.
Proof.
  induction s as [|c s IH].
  - change (EmptyString ++ t)%string with t. by destruct t.
  - rewrite append_cons. simpl. by rewrite IH.
Qed.

Lemma substring_0_all (t : string) : substring 0 (String.length t) t = t.
Proof. induction t as [|c t IH]; simpl; [done|]. by rewrite IH. Qed.

Lemma substring_skip_app (s t : string) (m : nat) :
  substring (String.length s) m (s ++ t) = substring 0 m t.
Proof.
  induction s as [|c s IH]; [done|]. rewrite append_cons. simpl. by rewrite IH.
Qed.

Lemma all_dots_prefix (dots rest : string) (n : nat) :
  OsPath.all_dots dots = true -> (n <= String.length dots)%nat ->
  OsPath.all_dots (substring 0 n (dots ++ rest)) = true.
Proof.
  revert n. induction dots as [|c dots IH]; intros n Hd Hn.
  - simpl in Hn. assert (n = 0%nat) as -> by lia.
    change (EmptyString ++ rest)%string with rest. by destruct rest.
  - cbn [OsPath.all_dots] in Hd. apply andb_true_iff in Hd as [Hc Hd].
    rewrite append_cons. destruct n as [|n]; [done|].
    simpl in *. rewrite Hc. apply IH; [done|lia].
Qed.

Lemma all_dots_no_slash (dots : string) :
  OsPath.all_dots dots = true -> PyStr.mem_char "/"%char dots = false.
Proof.
  induction dots as [|c dots IH]; intros Hd; [done|].
  cbn [OsPath.all_dots] in Hd. apply andb_true_iff in Hd as [Hc Hd].
  cbn [PyStr.mem_char]. rewrite (IH Hd). apply Ascii.eqb_eq in Hc. by subst c.
Qed.

(** [splitext] on a name with a stem and an extension. *)
Lemma splitext_stem_ext (stem ext : string) :
  OsPath.all_dots stem = false ->
  PyStr.mem_char "/"%char stem = false -> PyStr.mem_char "/"%char ext = false ->
  PyStr.mem_char "."%char ext = false ->
  OsPath.splitext (stem ++ String "."%char ext) = (stem, String "."%char ext).
Proof.
  intros Hstem Hs1 Hs2 Hdot. unfold OsPath.splitext.
  rewrite rfind_app_last by done.
  rewrite rfind_absent by (rewrite mem_char_app; cbn [PyStr.mem_char]; by rewrite Hs1, Hs2).
  cbn [Nat.leb]. rewrite Nat.sub_0_r, substring_0_app, Hstem.
  rewrite length_append, Nat.add_comm, Nat.add_sub, substring_skip_app.
  by rewrite substring_0_all.
Qed.

(** [splitext] on a name with no extension: dots, then no dot at all. *)
Lemma splitext_no_ext (dots rest : string) :
  OsPath.all_dots dots = true ->
  PyStr.mem_char "."%char rest = false -> PyStr.mem_char "/"%char rest = false ->
  OsPath.splitext (dots ++ rest) = ((dots ++ rest)%string, EmptyString).
Proof.
  intros Hd Hdot Hslash. unfold OsPath.splitext.
  rewrite rfind_app_absent by done.
  destruct (OsPath.rfind "."%char dots) as [i|] eqn:Hi; [|done].
  rewrite rfind_absent
    by (rewrite mem_char_app; by rewrite (all_dots_no_slash dots Hd), Hslash).
  cbn [Nat.leb]. rewrite Nat.sub_0_r.
  apply rfind_lt in Hi. rewrite all_dots_prefix; [done|done|lia].
Qed.

Lemma join_data (f : string) :
  String.prefix "/" f = false -> OsPath.join "data" f = ("data/" ++ f)%string.
Proof. intros Hf. unfold OsPath.join. by rewrite Hf. Qed.

Lemma get_documents_reranker_result (environ : gmap string string)
    (listdir : string -> option (list string)) (isfile : string -> bool) :
  snd (get_documents_reranker environ listdir isfile)
  = match listdir "data" with
    | None => None
    | Some names =>
        Some (List.filter (listed_file isfile "data" ["txt"; "csv"; "pdf"; "json"]) names)
    end.
Proof.
  unfold get_documents_reranker. cbn [snd].
  rewrite lookup_insert_eq.
  rewrite lookup_insert_ne by done. rewrite lookup_insert_eq. done.
Qed.

(** X10.  Whatever [os.environ] held before, [get_documents_reranker] lists
    the directory [data] and keeps the types txt, csv, pdf and json; it
    raises exactly when [os.listdir] does, and returns names of the listing,
    in its order.  It leaves [data_directory] and [file_types] set to these
    values and every other variable as it was. *)
Theorem X10_get_documents_environment (environ : gmap string string)
    (listdir : string -> option (list string)) (isfile : string -> bool) :
  snd (get_documents_reranker environ listdir isfile)
  = snd (get_documents_reranker ∅ listdir isfile)
  /\ (snd (get_documents_reranker environ listdir isfile) = None
      <-> listdir "data" = None)
  /\ (forall names files,
        listdir "data" = Some names ->
        snd (get_documents_reranker environ listdir isfile) = Some files ->
        files `sublist_of` names)
  /\ fst (get_documents_reranker environ listdir isfile) !! "data_directory" = Some "data"
  /\ fst (get_documents_reranker environ listdir isfile) !! "file_types"
     = Some "txt,csv,pdf,json"
  /\ forall k, k <> "data_directory" -> k <> "file_types" ->
       fst (get_documents_reranker environ listdir isfile) !! k = environ !! k.
Proof.
  rewrite !get_documents_reranker_result. split; [done|]. split.
  { by destruct (listdir "data"). }
  split.
  { intros names files -> [= <-]. clear.
    induction names as [|f names IH]; simpl; [done|].
    destruct (listed_file _ _ _ f); [by apply sublist_skip|by apply sublist_cons]. }
  unfold get_documents_reranker. cbn [fst].
  split; [by rewrite lookup_insert_ne, lookup_insert_eq|].
  split; [by rewrite lookup_insert_eq|].
  intros k Hk1 Hk2. by rewrite !lookup_insert_ne.
Qed.

(** X11.  A name made of a stem, a dot and an extension (no slash in it, no
    dot in the extension, a character other than a dot in the stem) is
    returned exactly when it is in the listing, is a regular file of
    [data], and its extension is txt, csv, pdf or json, in this case. *)
Theorem X11_get_documents_keeps_typed_files (environ : gmap string string)
    (listdir : string -> option (list string)) (isfile : string -> bool)
    (names : list string) (stem ext : string) :
  listdir "data" = Some names ->
  OsPath.all_dots stem = false ->
  PyStr.mem_char "/"%char stem = false -> PyStr.mem_char "/"%char ext = false ->
  PyStr.mem_char "."%char ext = false ->
  exists files,
    snd (get_documents_reranker environ listdir isfile) = Some files
    /\ (In (stem ++ String "."%char ext)%string files
        <-> In (stem ++ String "."%char ext)%string names
            /\ isfile ("data/" ++ stem ++ String "."%char ext)%string = true
            /\ In ext ["txt"; "csv"; "pdf"; "json"]).
Proof.
  intros Hdir Hstem Hs1 Hs2 Hdot.
  rewrite get_documents_reranker_result, Hdir. eexists. split; [done|].
  rewrite filter_In. unfold listed_file.
  rewrite splitext_stem_ext by done. cbn [snd str_tail].
  rewrite join_data.
  - rewrite andb_true_iff, existsb_exists. split.
    + intros (Hin & Hfile & x & Hx & Heq). apply String.eqb_eq in Heq. by subst x.
    + intros (Hin & Hfile & Hext). split; [done|]. split; [done|].
      exists ext. split; [done|apply String.eqb_refl].
  - destruct stem as [|c stem]; [done|]. rewrite append_cons.
    cbn [PyStr.mem_char] in Hs1. apply orb_false_iff in Hs1 as [Hc _].
    cbn [String.prefix]. destruct (ascii_dec "/" c) as [<-|]; [|done]. done.
Qed.

Lemma X11_get_documents_keeps_typed_files_witness :
  exists files,
    snd (get_documents_reranker ∅ (fun _ => Some ["notes.txt"; "a.md"]) (fun _ => true))
    = Some files
    /\ (In ("notes" ++ String "."%char "txt")%string files
        <-> In ("notes" ++ String "."%char "txt")%string ["notes.txt"; "a.md"]
            /\ (fun _ : string => true) ("data/" ++ "notes" ++ String "."%char "txt")%string = true
            /\ In "txt" ["txt"; "csv"; "pdf"; "json"]).
Proof.
  apply (X11_get_documents_keeps_typed_files ∅ (fun _ => Some ["notes.txt"; "a.md"])
           (fun _ => true) ["notes.txt"; "a.md"] "notes" "txt");
    reflexivity.
Defined.

(** X12.  A name with no extension in the sense of [os.path.splitext] - no
    dot at all, or dots at its start only, as the hidden file [.txt] - is
    never returned, whatever stands after the dots. *)
Theorem X12_get_documents_drops_names_without_extension (environ : gmap string string)
    (listdir : string -> option (list string)) (isfile : string -> bool)
    (files : list string) (dots rest : string) :
  snd (get_documents_reranker environ listdir isfile) = Some files ->
  OsPath.all_dots dots = true ->
  PyStr.mem_char "."%char rest = false -> PyStr.mem_char "/"%char rest = false ->
  Forall (fun f => f <> (dots ++ rest)%string) files.
Proof.
  intros Hres Hd Hdot Hslash. rewrite get_documents_reranker_result in Hres.
  destruct (listdir "data") as [names|]; [|done]. injection Hres as <-.
  apply Forall_forall. intros f Hf ->.
  apply list_elem_of_In, filter_In in Hf as [_ Hf]. unfold listed_file in Hf.
  rewrite splitext_no_ext in Hf by done. cbn [snd str_tail] in Hf.
  apply andb_true_iff in Hf as [_ Hf]. done.
Qed.

Lemma X12_get_documents_drops_names_without_extension_witness :
  Forall (fun f => f <> ("." ++ "txt")%string) ["notes.txt"].
Proof.
  apply (X12_get_documents_drops_names_without_extension ∅
           (fun _ => Some ["notes.txt"; ".txt"; "README"]) (fun _ => true)
           ["notes.txt"] "." "txt");
    reflexivity.
Defined.

(** *** The semantic path: monotone fusion, truncation and ties *)

(** X15.  Both fusions are monotone: with a non-negative weight on the
    feedback score, a larger feedback score never gives a smaller combined
    score, and likewise for the relevance score (lexical: [alpha >= 0];
    semantic: [feedback_weight <= 1]). *)
Theorem X15_fusion_monotone :
  (forall r f f' alpha beta : Q,
     (0 <= beta)%Q -> (f <= f')%Q ->
     (compute_relevance_score r f alpha beta <= compute_relevance_score r f' alpha beta)%Q)
  /\ (forall r r' f alpha beta : Q,
        (0 <= alpha)%Q -> (r <= r')%Q ->
        (compute_relevance_score r f alpha beta <= compute_relevance_score r' f alpha beta)%Q)
  /\ (forall (self : FeedbackAwareCrossEncoderReranker) (ce fb fb' : Q),
        (0 <= feedback_weight self)%Q -> (fb <= fb')%Q ->
        (combined_score_of self ce fb <= combined_score_of self ce fb')%Q)
  /\ (forall (self : FeedbackAwareCrossEncoderReranker) (ce ce' fb : Q),
        (feedback_weight self <= 1)%Q -> (ce <= ce')%Q ->
        (combined_score_of self ce fb <= combined_score_of self ce' fb)%Q).
Proof.
  unfold compute_relevance_score, combined_score_of.
  repeat split; intros.
  - nra.
  - nra.
  - generalize dependent (feedback_weight self). intros. nra.
  - generalize dependent (feedback_weight self). intros. nra.
Qed.

(** X16.  A negative [top_n] is a slice from the end: with one score per
    candidate, [compress_documents] returns all the candidates but the
    [-top_n] of lowest rank (none when there are not more than [-top_n]). *)
Theorem X16_negative_top_n (self : FeedbackAwareCrossEncoderReranker)
    (documents : list Document) (query : string) :
  (top_n self < 0)%Z ->
  length (cross_encoder_scores self documents query) = length documents ->
  ranked self documents query
  = take (length documents - Z.to_nat (- top_n self))
      (sorted_result self documents query)
  /\ length (compress_documents self documents query)
     = (length documents - Z.to_nat (- top_n self))%nat.
Proof.
  intros Hneg Hlen.
  pose proof (sorted_result_length self documents query) as Hsr.
  rewrite Hlen, Nat.min_id in Hsr.
  assert (ranked self documents query
          = take (length documents - Z.to_nat (- top_n self))
              (sorted_result self documents query)) as Hrk.
  { unfold ranked, slice_to.
    destruct (Z.leb_spec 0 (top_n self)) as [Hge|_]; [lia|]. by rewrite Hsr. }
  split; [done|].
  rewrite compress_documents_ranked, length_map, Hrk, length_take, Hsr. lia.
Qed.

Lemma X16_negative_top_n_witness :
  ranked (mkReranker Samples.model_one (-1) None (1 # 2))
    [Samples.doc_x; Samples.doc_y; Samples.doc_x] "q"
  = take (3 - Z.to_nat (- (-1)))
      (sorted_result (mkReranker Samples.model_one (-1) None (1 # 2))
         [Samples.doc_x; Samples.doc_y; Samples.doc_x] "q")
  /\ length (compress_documents (mkReranker Samples.model_one (-1) None (1 # 2))
               [Samples.doc_x; Samples.doc_y; Samples.doc_x] "q")
     = (3 - Z.to_nat (- (-1)))%nat.
Proof.
  apply (X16_negative_top_n (mkReranker Samples.model_one (-1) None (1 # 2))
           [Samples.doc_x; Samples.doc_y; Samples.doc_x] "q").
  - simpl. lia.
  - reflexivity.
Defined.

(** X17.  When the model returns fewer scores than there are candidates,
    the candidates beyond the scores are dropped without an error: for a
    non-negative [top_n] the number of documents returned is the least of
    [top_n], the number of candidates and the number of scores, and each of
    them comes from a candidate that got a score. *)
Theorem X17_candidates_without_score_dropped (self : FeedbackAwareCrossEncoderReranker)
    (documents : list Document) (query : string) :
  (0 <= top_n self)%Z ->
  length (compress_documents self documents query)
  = Nat.min (Z.to_nat (top_n self))
      (Nat.min (length (cross_encoder_scores self documents query)) (length documents))
  /\ Forall (fun out =>
               exists src,
                 src ∈ take (length (cross_encoder_scores self documents query)) documents
                 /\ page_content out = page_content src)
       (compress_documents self documents query).
Proof.
  intros Htop. split.
  - rewrite compress_documents_ranked, length_map. unfold ranked.
    rewrite slice_to_length by done. rewrite sorted_result_length. lia.
  - rewrite compress_documents_ranked. apply Forall_forall. intros out Hout.
    rewrite list_elem_of_In, in_map_iff in Hout. destruct Hout as (p & <- & Hp).
    exists (fst p). split; [|done].
    rewrite <- docs_with_scores_fst_take.
    apply list_elem_of_In, in_map, list_elem_of_In, ranked_elem.
    by apply list_elem_of_In.
Qed.

Lemma X17_candidates_without_score_dropped_witness :
  length (compress_documents
            (mkReranker (fun pairs => take 1 (Samples.model_one pairs)) 3 None (1 # 2))
            [Samples.doc_x; Samples.doc_y] "q")
  = Nat.min (Z.to_nat 3)
      (Nat.min (length (cross_encoder_scores
                          (mkReranker (fun pairs => take 1 (Samples.model_one pairs))
                             3 None (1 # 2))
                          [Samples.doc_x; Samples.doc_y] "q"))
         (length [Samples.doc_x; Samples.doc_y]))
  /\ Forall (fun out =>
               exists src,
                 src ∈ take (length (cross_encoder_scores
                                       (mkReranker
                                          (fun pairs => take 1 (Samples.model_one pairs))
                                          3 None (1 # 2))
                                       [Samples.doc_x; Samples.doc_y] "q"))
                         [Samples.doc_x; Samples.doc_y]
                 /\ page_content out = page_content src)
       (compress_documents
          (mkReranker (fun pairs => take 1 (Samples.model_one pairs)) 3 None (1 # 2))
          [Samples.doc_x; Samples.doc_y] "q").
Proof.
  apply (X17_candidates_without_score_dropped
           (mkReranker (fun pairs => take 1 (Samples.model_one pairs)) 3 None (1 # 2))
           [Samples.doc_x; Samples.doc_y] "q").
  simpl. lia.
Defined.

Lemma filter_Forall_id {A : Type} (P : A -> Prop) `{forall x, Decision (P x)} (l : list A) :
  Forall P l -> filter P l = l.
Proof.
  induction 1 as [|x l Hx Hl IH]; [done|].
  rewrite filter_cons_True by done. by rewrite IH.
Qed.

Lemma slice_to_map {A B : Type} (f : A -> B) (stop : Z) (l : list A) :
  slice_to stop (map f l) = map f (slice_to stop l).
Proof.
  unfold slice_to. rewrite length_map. by destruct (0 <=? stop)%Z; rewrite firstn_map.
Qed.

(** X18.  When all the candidates get the same combined score, with one
    score per candidate, the sort leaves them in place: the documents
    returned are the first [top_n] candidates, in the order of the
    candidates. *)
Theorem X18_equal_scores_keep_candidate_order (self : FeedbackAwareCrossEncoderReranker)
    (documents : list Document) (query : string) (k : Q) :
  Forall (fun p => snd p == k)%Q (docs_with_scores self documents query) ->
  length (cross_encoder_scores self documents query) = length documents ->
  sorted_result self documents query = docs_with_scores self documents query
  /\ map page_content (compress_documents self documents query)
     = slice_to (top_n self) (map page_content documents).
Proof.
  intros Hall Hlen.
  destruct (sorted_result_spec self documents query) as (Hperm & _ & Hties).
  assert (sorted_result self documents query = docs_with_scores self documents query)
    as Heq.
  { rewrite <- (filter_Forall_id (fun p => snd p == k)%Q
                  (sorted_result self documents query)) by (by rewrite Hperm).
    rewrite Hties. by apply filter_Forall_id. }
  split; [done|].
  rewrite compress_documents_ranked, map_map. cbn [annotate page_content].
  unfold ranked. rewrite Heq.
  rewrite <- (docs_with_scores_fst_full self documents query Hlen) at 2.
  by rewrite map_map, slice_to_map.
Qed.

Lemma X18_equal_scores_keep_candidate_order_witness :
  sorted_result Samples.plain_reranker [Samples.doc_y; Samples.doc_x] "q"
  = docs_with_scores Samples.plain_reranker [Samples.doc_y; Samples.doc_x] "q"
  /\ map page_content
       (compress_documents Samples.plain_reranker [Samples.doc_y; Samples.doc_x] "q")
     = slice_to (top_n Samples.plain_reranker)
         (map page_content [Samples.doc_y; Samples.doc_x]).
Proof.
  apply (X18_equal_scores_keep_candidate_order Samples.plain_reranker
           [Samples.doc_y; Samples.doc_x] "q" (3 # 4)).
  - repeat constructor; by vm_compute.
  - reflexivity.
Defined.

(** *** The left join of [combiner] *)

(** X19.  On a feedback frame with a row, [combiner] keeps every
    candidate: the table has one row per candidate, in the order of the
    candidates, and the row of a candidate that no feedback record names
    holds the rating 0 (the [NaN] of the left merge, filled by line 86). *)
Theorem X19_unnamed_candidate_gets_zero (r : FeedbackRow) (feedback : list FeedbackRow)
    (documents_lst : list string) :
  exists table,
    combiner (r :: feedback) documents_lst = Ok table
    /\ map fst table = documents_lst
    /\ Forall (fun row =>
                 Forall (fun r' => fst row ∉ record_ids r') (r :: feedback) ->
                 snd row = 0)
         table.
Proof.
  destruct (combiner_unseen_rating_zero r feedback documents_lst)
    as (table & Htable & Hkeys & Hzero).
  exists table. split; [done|]. split; [done|].
  apply Forall_forall. intros row Hrow Hno.
  apply Hzero; [done|]. intros Hin.
  apply visits_source in Hin as (r' & Hr' & Hd).
  rewrite Forall_forall in Hno. by apply (Hno r' Hr').
Qed.
